(** * deephaven.plot.express: object export and live figure updates

    A shallow embedding of [deephaven_figure/DeephavenFigure.py] and of the
    message-stream adapter of [deephaven/plot/express/__init__.py].

    Python objects that are shared and mutated in place (figures, listeners)
    live in a heap and are addressed by location; methods are functions on the
    heap that also record the externally visible actions they take (lock
    operations, execution-context entry and exit, collaborator calls,
    messages handed to a connection and the assignments that publish a new
    figure).  Exceptions are values. *)

From stdpp Require Import base option list strings gmap.
From Stdlib Require Import ZArith.

#[local] Set Warnings "-register-all,-clear-no-such-hyp".
#[local] Open Scope Z_scope.

(** ** Python values *)

(** A Python object that the model does not look into (a table, a message
    stream, a template object, ...), by what the code can tell of it: its
    identity, as [id(obj)] gives it, and the key a [dict] files it under.  A
    dict takes two objects for the same key when [hash] and [==] say so, and
    raises [TypeError] for an object that is not hashable: [dict_key] is
    [None] for such an object, and two hashable objects are the same key
    exactly when their [dict_key]s are equal. *)
Record object := mkObject { identity : nat; dict_key : option nat }.

(** An object of a class that defines neither [__eq__] nor [__hash__]: it is
    equal to itself only. *)
Definition plain (id : nat) : object :=
  {| identity := id; dict_key := Some id |}.

(** What [call_args] and [orig_args] hold. *)
Inductive pyval :=
| PNone
| PBool (b : bool)
| PInt (z : Z)
| PStr (s : string)
| PList (l : list pyval)
| PDict (d : gmap string pyval)
| PObj (o : object).

(** [bool(v)]. *)
Definition truthy (v : pyval) : bool :=
  match v with
  | PNone => false
  | PBool b => b
  | PInt z => negb (z =? 0)
  | PStr s => negb (String.eqb s "")
  | PList l => negb (Nat.eqb (length l) 0)
  | PDict d => negb (Nat.eqb (size d) 0)
  | PObj _ => true
  end.

(** Keyword arguments: a [dict] with [str] keys. *)
Abbreviation kwargs := (gmap string pyval).

(** [bool(d)] for a dict. *)
Definition dict_truthy (d : kwargs) : bool := negb (Nat.eqb (size d) 0).

(** What [json.loads] returns and [json.dumps] takes. *)
Inductive json :=
| JNull
| JBool (b : bool)
| JNum (z : Z)
| JStr (s : string)
| JArr (l : list json)
| JObj (kvs : list (string * json)).

(** Exceptions. *)
Inductive exn :=
| ValueError (msg : string)
| AttributeError (cls attr : string)
| KeyError (key : string)
| TypeError (msg : string)
| Raised (e : object).

Abbreviation result A := (exn + A)%type.

(** ** Reference and Exporter *)

Record Reference := mkReference { index : nat; obj : object }.

(** [self.references] is a [dict] from object to [Reference]; a Python dict
    keeps its keys in insertion order, and [reference_list] depends on that
    order, so the dict is an association list in insertion order.  An entry
    holds the object it was stored under, which is what [keys()] gives
    back. *)
Record Exporter := mkExporter { references : list (object * Reference) }.

Module Exporter.

(** [Exporter.__init__] *)
Definition init : Exporter := {| references := [] |}.

(** The entry that an object with key [k] selects in [self.references]: the
    one stored under an object with that key.  [None] stands for a missing
    key. *)
Fixpoint getitem (d : list (object * Reference)) (k : nat)
  : option Reference :=
  match d with
  | [] => None
  | (o', r) :: d' =>
      if decide (dict_key o' = Some k) then Some r else getitem d' k
  end.

(** The body of [reference] for a hashable [o], whose key is [k]:
    [if obj not in self.references: self.references[obj] = Reference(len(
    self.references), obj)] and then [return self.references[obj]]. *)
Definition reference_hashed (self : Exporter) (k : nat) (o : object)
  : Reference * Exporter :=
  match getitem (references self) k with
  | Some r => (r, self)
  | None =>
      let r := {| index := length (references self); obj := o |} in
      (r, {| references := references self ++ [(o, r)] |})
  end.

(** [Exporter.reference]: the Reference returned and the exporter after
    the call.  For an object that is not hashable the membership test
    [obj not in self.references] raises [TypeError], with nothing stored. *)
Definition reference (self : Exporter) (o : object)
  : result (Reference * Exporter) :=
  match dict_key o with
  | Some k => inr (reference_hashed self k o)
  | None => inl (TypeError "unhashable type")
  end.

(** [Exporter.reference_list] *)
Definition reference_list (self : Exporter) : list object :=
  (references self).*1.

(** A sequence of [reference] calls on one exporter, with what each call
    returned or raised.  A call that raises leaves the exporter as it is,
    and the next call goes on from there. *)
Fixpoint reference_all (self : Exporter) (os : list object)
  : list (result Reference) * Exporter :=
  match os with
  | [] => ([], self)
  | o :: os' =>
      match reference self o with
      | inl err =>
          let '(rs, e2) := reference_all self os' in
          (inl err :: rs, e2)
      | inr (r, e1) =>
          let '(rs, e2) := reference_all e1 os' in
          (inr r :: rs, e2)
      end
  end.

End Exporter.

(** ** Data mappings *)

(** Modelled from the spec: a data table, which the spec has the exporter
    resolve to an index.  A table can be a dict key: it has an identity and a
    key, and two table objects over the same data may share their key. *)
Record Table := mkTable { table_id : nat; table_key : nat }.

(** The table as an object. *)
Definition table_object (t : Table) : object :=
  {| identity := table_id t; dict_key := Some (table_key t) |}.

(** Modelled from the spec: the [DataMapping] class ([..data_mapping]) is not
    among the sources.  The spec gives it a column-to-property mapping, a
    source table and an integer offset; [copy(offset)] keeps the associations
    and the table and shifts the offset; [get_links(exporter)] resolves the
    source table through [exporter.reference] for each column/property pair
    and yields one link record per pair, carrying the reference index. *)
Record DataMapping := mkDataMapping {
  column_to_property : list (string * string);
  source_table : Table;
  offset : Z
}.

Module DataMapping.

Definition copy (self : DataMapping) (k : Z) : DataMapping :=
  {| column_to_property := column_to_property self;
     source_table := source_table self;
     offset := offset self + k |}.

Definition link (self : DataMapping) (cp : string * string) (r : Reference)
  : json :=
  JObj [("table", JNum (Z.of_nat (index r)));
        ("data_columns", JObj [(cp.1, JStr cp.2)]);
        ("offset", JNum (offset self))].

(** [exporter.reference(table)]: a table is hashable, so the call returns. *)
Definition reference_table (exporter : Exporter) (t : Table)
  : Reference * Exporter :=
  Exporter.reference_hashed exporter (table_key t) (table_object t).

Fixpoint links (self : DataMapping) (cps : list (string * string))
    (exporter : Exporter) : list json * Exporter :=
  match cps with
  | [] => ([], exporter)
  | cp :: cps' =>
      let '(r, e1) := reference_table exporter (source_table self) in
      let '(ls, e2) := links self cps' e1 in
      (link self cp r :: ls, e2)
  end.

Definition get_links (self : DataMapping) (exporter : Exporter)
  : list json * Exporter :=
  links self (column_to_property self) exporter.

End DataMapping.

(** ** Libraries the code calls *)

(** Handles of Python objects the code only passes around. *)
Definition Callable := object.
Definition MessageStream := object.
Definition ExecutionContext := object.
Definition Generator := object.
Definition Lock := object.
Definition loc := nat.

(** [json.dumps], [json.loads], [str.encode] and
    [plotly.graph_objects.Figure.to_json].  [loads] is only ever applied to
    JSON text produced by [dumps] or by a plotly figure, where it does not
    raise. *)
Class Libraries := {
  pystr : Type;
  pybytes : Type;
  dumps : json → pystr;
  loads : pystr → json;
  encode : pystr → pybytes;
  loads_dumps : ∀ v, loads (dumps v) = v;
  Figure : Type;
  Figure_to_json : Figure → pystr
}.

(** ** has_color_args, has_arg *)

(** [for arg in [...]: if arg in call_args and bool(call_args[arg]): return
    True] *)
Fixpoint any_truthy_arg (call_args : kwargs) (names : list string) : bool :=
  match names with
  | [] => false
  | arg :: names' =>
      match call_args !! arg with
      | Some v => if truthy v then true else any_truthy_arg call_args names'
      | None => any_truthy_arg call_args names'
      end
  end.

Definition has_color_args (call_args : kwargs) : bool :=
  any_truthy_arg call_args
    ["color_discrete_sequence_line"; "color_discrete_sequence_marker"].

(** [check: str | Callable] *)
Inductive Check :=
| CheckStr (s : string)
| CheckFn (f : kwargs → bool).

(** [call_args] is [None] by default in [DeephavenFigure.__init__]. *)
Definition has_arg (call_args : option kwargs) (check : Check) : bool :=
  match call_args with
  | Some d =>
      if dict_truthy d then
        match check with
        | CheckStr s =>
            match d !! s with
            | Some v => truthy v
            | None => false
            end
        | CheckFn f => f d
        end
      else false
  | None => false
  end.

(** ** Figures, listeners and the heap *)

(** A [DeephavenFigure] instance.  [listener] is a reference to the listener
    object.  [attrs] holds attributes that code outside the class sets on the
    instance: the class declares none of them and never reads them. *)
Record DeephavenFigure `{Libraries} := mkDeephavenFigure {
  fig : option Figure;
  call : option Callable;
  call_args : option kwargs;
  trace_generator : option Generator;
  has_template : bool;
  has_color : bool;
  _data_mappings : list DataMapping;
  has_subplots : bool;
  listener : option loc;
  fig_lock : Lock;
  attrs : gmap string pyval
}.

(** A [DeephavenFigureListener] instance. *)
Record DeephavenFigureListener `{Libraries} := mkDeephavenFigureListener {
  table : object;
  partitions : Z;
  deephaven_figure : option DeephavenFigure;
  orig_func : Callable;
  orig_args : kwargs;
  connection : option MessageStream;
  exporter : Exporter;
  exec_ctx : ExecutionContext
}.

Inductive pyobject `{Libraries} :=
| OFigure (f : DeephavenFigure)
| OListener (l : DeephavenFigureListener).

Abbreviation heap := (gmap loc pyobject).

(** What a method does that its caller, a peer or another thread can see.
    [EvReplace self attr] is [DeephavenFigure.on_update] assigning attribute
    [attr] of the figure at [self] from the new figure. *)
Inductive event `{Libraries} :=
| EvAcquire (l : Lock)
| EvRelease (l : Lock)
| EvEnter (c : ExecutionContext)
| EvExit (c : ExecutionContext)
| EvCall (f : Callable) (args : kwargs)
| EvOnData (c : MessageStream) (payload : pybytes) (refs : list object)
| EvReplace (self : loc) (attr : string).

(** The table engine and the chart-construction functions: [invoke f w args]
    is what [f( **args )] returns or raises when the live tables are in state
    [w]; [constituent_tables w t] is [t.constituent_tables] in that state. *)
Class Host `{Libraries} := {
  World : Type;
  invoke : Callable → World → kwargs → result (DeephavenFigure * pyval);
  isinstance_PartitionedTable : object → bool;
  constituent_tables : World → object → list object
}.

(** Modelled from the spec: [args_copy] ([..shared]) is not among the
    sources.  The spec has the stored arguments deep-copied before every
    recompute; the copy of a value is that value. *)
Definition args_copy (args : kwargs) : kwargs := args.

(** ** Methods

    A method runs on a state (the instance it is called on, or the heap) and
    gives the state it leaves, the events it caused and its value or the
    exception it raised. *)

Record outcome `{Libraries} (S A : Type) := Outcome {
  out_state : S;
  out_trace : list event;
  out_val : result A
}.
Arguments Outcome {_ _ _} _ _ _.
Arguments out_state {_ _ _} _.
Arguments out_trace {_ _ _} _.
Arguments out_val {_ _ _} _.

Definition M `{Libraries} (S A : Type) : Type := S → outcome S A.

Definition ret `{Libraries} {S A} (a : A) : M S A := λ s, Outcome s [] (inr a).

Definition raise `{Libraries} {S A} (e : exn) : M S A :=
  λ s, Outcome s [] (inl e).

Definition bind `{Libraries} {S A B} (m : M S A) (k : A → M S B) : M S B := λ s,
  let o := m s in
  match out_val o with
  | inl e => Outcome (out_state o) (out_trace o) (inl e)
  | inr a =>
      let o' := k a (out_state o) in
      Outcome (out_state o') (out_trace o ++ out_trace o') (out_val o')
  end.

Notation "x <- m ;; k" := (bind m (λ x, k))
  (at level 100, m at next level, right associativity).
Notation "m ;; k" := (bind m (λ _, k))
  (at level 100, right associativity).

Definition gets `{Libraries} {S A} (f : S → A) : M S A :=
  λ s, Outcome s [] (inr (f s)).

Definition modify `{Libraries} {S} (f : S → S) : M S unit :=
  λ s, Outcome (f s) [] (inr ()).

Definition emit `{Libraries} {S} (ev : event) : M S unit :=
  λ s, Outcome s [ev] (inr ()).

Definition lift `{Libraries} {S A} (r : result A) : M S A :=
  match r with
  | inl e => raise e
  | inr a => ret a
  end.

(** [with cm: body], for a context manager whose [__exit__] lets exceptions
    through: the exit runs whether or not the body raises. *)
Definition with_ `{Libraries} {S A} (enter exit : event) (body : M S A)
  : M S A := λ s,
  let o := body s in
  Outcome (out_state o) (enter :: out_trace o ++ [exit]) (out_val o).

(** A method of the listener at [self], run on the heap. *)
Definition in_listener `{Libraries} {A} (self : loc)
    (m : M DeephavenFigureListener A) : M heap A := λ h,
  match h !! self with
  | Some (OListener l) =>
      let o := m l in
      Outcome (<[self := OListener (out_state o)]> h) (out_trace o) (out_val o)
  | Some (OFigure _) => raise (TypeError "not a DeephavenFigureListener") h
  | None => raise (TypeError "no such object") h
  end.

(** A method of the figure at [self], run on the heap. *)
Definition in_figure `{Libraries} {A} (self : loc)
    (m : M DeephavenFigure A) : M heap A := λ h,
  match h !! self with
  | Some (OFigure f) =>
      let o := m f in
      Outcome (<[self := OFigure (out_state o)]> h) (out_trace o) (out_val o)
  | Some (OListener _) => raise (TypeError "not a DeephavenFigure") h
  | None => raise (TypeError "no such object") h
  end.

(** A new object on the heap. *)
Definition alloc `{Libraries} (o : pyobject) : M heap loc := λ h,
  let l := fresh (dom h) in
  Outcome (<[l := o]> h) [] (inr l).

(** ** DeephavenFigure: construction and serialization *)

Module DeephavenFigure.

(** [__init__].  [has_template] and [has_color] are [None] when the caller
    leaves them out; their default is [False].  [lock] is the new
    [threading.Lock()]. *)
Definition init `{Libraries} (fig : option Figure) (call : option Callable)
    (call_args : option kwargs) (data_mappings : option (list DataMapping))
    (has_template has_color : option bool)
    (trace_generator : option Generator) (has_subplots : option bool)
    (lock : Lock) : DeephavenFigure :=
  let has_template := default false has_template in
  let has_color := default false has_color in
  let has_subplots := default false has_subplots in
  {| fig := fig;
     call := call;
     call_args := call_args;
     trace_generator := trace_generator;
     has_template :=
       if has_template then has_template
       else has_arg call_args (CheckStr "template");
     has_color :=
       if has_color then has_color
       else has_arg call_args (CheckFn has_color_args);
     _data_mappings :=
       match data_mappings with
       | Some (m :: ms) => m :: ms
       | _ => []
       end;
     has_subplots := has_subplots;
     listener := None;
     fig_lock := lock;
     attrs := ∅ |}.

(** [copy_mappings] *)
Definition copy_mappings `{Libraries} (self : DeephavenFigure) (offset : Z)
  : list DataMapping :=
  (λ mapping, DataMapping.copy mapping offset) <$> _data_mappings self.

(** [get_json_links]: the comprehension runs over the mappings in order,
    each [get_links] call working on the exporter as the previous one left
    it. *)
Fixpoint json_links (mappings : list DataMapping) (exporter : Exporter)
  : list json * Exporter :=
  match mappings with
  | [] => ([], exporter)
  | mapping :: rest =>
      let '(ls, e1) := DataMapping.get_links mapping exporter in
      let '(ls', e2) := json_links rest e1 in
      (ls ++ ls', e2)
  end.

Definition get_json_links `{Libraries} (self : DeephavenFigure)
    (exporter : Exporter) : list json * Exporter :=
  json_links (_data_mappings self) exporter.

(** The [payload] dict of [to_json]. *)
Definition payload_dict (plotly : json) (mappings : list json)
    (has_template has_color : bool) : json :=
  JObj [("plotly", plotly);
        ("deephaven",
         JObj [("mappings", JArr mappings);
               ("is_user_set_template", JBool has_template);
               ("is_user_set_color", JBool has_color)])].

(** [to_json].  [self.fig.to_json()] comes first and raises when [fig] is
    [None]; the exporter is untouched then. *)
Definition to_json `{Libraries} (self : DeephavenFigure) (exporter : Exporter)
  : result (pystr * Exporter) :=
  match fig self with
  | None => inl (AttributeError "NoneType" "to_json")
  | Some f =>
      let plotly := loads (Figure_to_json f) in
      let '(mappings, e) := get_json_links self exporter in
      inr (dumps (payload_dict plotly mappings
                    (has_template self) (has_color self)), e)
  end.

(** [to_dict] *)
Definition to_dict `{Libraries} (self : DeephavenFigure) (exporter : Exporter)
  : result (json * Exporter) :=
  match to_json self exporter with
  | inl e => inl e
  | inr (s, e) => inr (loads s, e)
  end.

End DeephavenFigure.

(** [export_figure] *)
Definition export_figure `{Libraries} (exporter : Exporter)
    (figure : DeephavenFigure) : result (pybytes * Exporter) :=
  match DeephavenFigure.to_json figure exporter with
  | inl e => inl e
  | inr (s, e) => inr (encode s, e)
  end.

(** ** DeephavenFigureListener *)

Module DeephavenFigureListener.

(** [partition_count], for a listener bound to [table], with the live
    tables in state [w]. *)
Definition partition_count `{Host} (table : object) (w : World) : Z :=
  if isinstance_PartitionedTable table
  then Z.of_nat (length (constituent_tables w table))
  else -1.

(** [self.orig_args["args"]["table"] = table], by the contents of the
    dict afterwards, which are what the listener reads from then on.  The
    dict is the one the caller passed: the caller sees the assignment
    too. *)
Definition set_args_table (orig_args : kwargs) (table : object)
  : result kwargs :=
  match orig_args !! "args" with
  | Some (PDict d) =>
      inr (<["args" := PDict (<["table" := PObj table]> d)]> orig_args)
  | Some _ => inl (TypeError "object does not support item assignment")
  | None => inl (KeyError "args")
  end.

(** [__init__] *)
Definition init `{Host} (table : object) (orig_func : Callable)
    (orig_args : kwargs) (exec_ctx : ExecutionContext) (w : World)
  : result DeephavenFigureListener :=
  match set_args_table orig_args table with
  | inl e => inl e
  | inr args =>
      inr {| table := table;
             partitions := partition_count table w;
             deephaven_figure := None;
             orig_func := orig_func;
             orig_args := args;
             connection := None;
             exporter := Exporter.init;
             exec_ctx := exec_ctx |}
  end.

Definition set_partitions `{Libraries} (l : DeephavenFigureListener) (n : Z)
  : DeephavenFigureListener :=
  {| table := table l; partitions := n;
     deephaven_figure := deephaven_figure l; orig_func := orig_func l;
     orig_args := orig_args l; connection := connection l;
     exporter := exporter l; exec_ctx := exec_ctx l |}.

Definition set_exporter `{Libraries} (l : DeephavenFigureListener)
    (e : Exporter)
  : DeephavenFigureListener :=
  {| table := table l; partitions := partitions l;
     deephaven_figure := deephaven_figure l; orig_func := orig_func l;
     orig_args := orig_args l; connection := connection l;
     exporter := e; exec_ctx := exec_ctx l |}.

Definition set_connection `{Libraries} (l : DeephavenFigureListener)
    (c : option MessageStream) : DeephavenFigureListener :=
  {| table := table l; partitions := partitions l;
     deephaven_figure := deephaven_figure l; orig_func := orig_func l;
     orig_args := orig_args l; connection := c;
     exporter := exporter l; exec_ctx := exec_ctx l |}.

(** [self.orig_func( **new_args )] *)
Definition call_func `{Host} {S} (f : Callable) (w : World) (args : kwargs)
  : M S (DeephavenFigure * pyval) :=
  emit (EvCall f args) ;; lift (invoke f w args).

(** [new_fig.to_dict(exporter=self.exporter)]: the listener's exporter is
    the one the call works on. *)
Definition to_dict_self `{Libraries} (new_fig : DeephavenFigure)
  : M DeephavenFigureListener json :=
  e <- gets exporter ;;
  pr <- lift (DeephavenFigure.to_dict new_fig e) ;;
  modify (λ self, set_exporter self pr.2) ;;
  ret pr.1.

(** [{"type": "NEW_FIGURE", "figure": ...}] *)
Definition new_figure_message (figure : json) : json :=
  JObj [("type", JStr "NEW_FIGURE"); ("figure", figure)].

(** [on_update].  [update] and [is_replay] are not used by the code. *)
Definition on_update `{Host} (update : object) (is_replay : bool) (w : World)
  : M DeephavenFigureListener DeephavenFigure :=
  ctx <- gets exec_ctx ;;
  with_ (EvEnter ctx) (EvExit ctx) (
    n <- gets (λ self, partition_count (table self) w) ;;
    modify (λ self, set_partitions self n) ;;
    new_args <- gets (λ self, args_copy (orig_args self)) ;;
    f <- gets orig_func ;;
    pr <- call_func f w new_args ;;
    let new_fig := pr.1 in
    to_dict_self new_fig ;;
    conn <- gets connection ;;
    match conn with
    | Some c =>
        figure <- to_dict_self new_fig ;;
        let message := new_figure_message figure in
        refs <- gets (λ self, Exporter.reference_list (exporter self)) ;;
        emit (EvOnData c (encode (dumps message)) refs)
    | None => ret ()
    end ;;
    ret new_fig).

(** [execute] *)
Definition execute `{Libraries} (payload : pybytes)
    (references : list object)
  : M DeephavenFigureListener (pybytes * list object) :=
  ret (payload, references).

End DeephavenFigureListener.

(** ** DeephavenFigure: listener set-up and updates

    These two methods of [DeephavenFigure] call into the listener, so they
    come after it. *)

Module DeephavenFigureUpdates.

Definition set_listener `{Libraries} (f : DeephavenFigure) (l : option loc)
  : DeephavenFigure :=
  {| fig := fig f; call := call f; call_args := call_args f;
     trace_generator := trace_generator f; has_template := has_template f;
     has_color := has_color f; _data_mappings := _data_mappings f;
     has_subplots := has_subplots f; listener := l;
     fig_lock := fig_lock f; attrs := attrs f |}.

(** [self.fig = v] and the like, one for each attribute that [on_update]
    assigns. *)
Definition set_fig `{Libraries} (f : DeephavenFigure) (v : option Figure)
  : DeephavenFigure :=
  {| fig := v; call := call f; call_args := call_args f;
     trace_generator := trace_generator f; has_template := has_template f;
     has_color := has_color f; _data_mappings := _data_mappings f;
     has_subplots := has_subplots f; listener := listener f;
     fig_lock := fig_lock f; attrs := attrs f |}.

Definition set_call `{Libraries} (f : DeephavenFigure) (v : option Callable)
  : DeephavenFigure :=
  {| fig := fig f; call := v; call_args := call_args f;
     trace_generator := trace_generator f; has_template := has_template f;
     has_color := has_color f; _data_mappings := _data_mappings f;
     has_subplots := has_subplots f; listener := listener f;
     fig_lock := fig_lock f; attrs := attrs f |}.

Definition set_call_args `{Libraries} (f : DeephavenFigure)
    (v : option kwargs) : DeephavenFigure :=
  {| fig := fig f; call := call f; call_args := v;
     trace_generator := trace_generator f; has_template := has_template f;
     has_color := has_color f; _data_mappings := _data_mappings f;
     has_subplots := has_subplots f; listener := listener f;
     fig_lock := fig_lock f; attrs := attrs f |}.

Definition set_trace_generator `{Libraries} (f : DeephavenFigure)
    (v : option Generator) : DeephavenFigure :=
  {| fig := fig f; call := call f; call_args := call_args f;
     trace_generator := v; has_template := has_template f;
     has_color := has_color f; _data_mappings := _data_mappings f;
     has_subplots := has_subplots f; listener := listener f;
     fig_lock := fig_lock f; attrs := attrs f |}.

Definition set_has_template `{Libraries} (f : DeephavenFigure) (v : bool)
  : DeephavenFigure :=
  {| fig := fig f; call := call f; call_args := call_args f;
     trace_generator := trace_generator f; has_template := v;
     has_color := has_color f; _data_mappings := _data_mappings f;
     has_subplots := has_subplots f; listener := listener f;
     fig_lock := fig_lock f; attrs := attrs f |}.

Definition set_has_color `{Libraries} (f : DeephavenFigure) (v : bool)
  : DeephavenFigure :=
  {| fig := fig f; call := call f; call_args := call_args f;
     trace_generator := trace_generator f; has_template := has_template f;
     has_color := v; _data_mappings := _data_mappings f;
     has_subplots := has_subplots f; listener := listener f;
     fig_lock := fig_lock f; attrs := attrs f |}.

Definition set_data_mappings `{Libraries} (f : DeephavenFigure)
    (v : list DataMapping) : DeephavenFigure :=
  {| fig := fig f; call := call f; call_args := call_args f;
     trace_generator := trace_generator f; has_template := has_template f;
     has_color := has_color f; _data_mappings := v;
     has_subplots := has_subplots f; listener := listener f;
     fig_lock := fig_lock f; attrs := attrs f |}.

Definition set_has_subplots `{Libraries} (f : DeephavenFigure) (v : bool)
  : DeephavenFigure :=
  {| fig := fig f; call := call f; call_args := call_args f;
     trace_generator := trace_generator f; has_template := has_template f;
     has_color := has_color f; _data_mappings := _data_mappings f;
     has_subplots := v; listener := listener f;
     fig_lock := fig_lock f; attrs := attrs f |}.

(** One of the assignments that end [on_update], on the figure at [self]. *)
Definition replace_attr `{Libraries} (self : loc) (attr : string)
    (set : DeephavenFigure → DeephavenFigure) : M heap unit :=
  emit (EvReplace self attr) ;; in_figure self (modify set).

(** The attributes [on_update] assigns, in the order it assigns them. *)
Definition replaced : list string :=
  ["fig"; "call"; "call_args"; "trace_generator"; "has_template";
   "has_color"; "_data_mappings"; "has_subplots"].

(** The figure once the eight assignments are done. *)
Definition assign_from `{Libraries} (new_fig self : DeephavenFigure)
  : DeephavenFigure :=
  {| fig := fig new_fig;
     call := call new_fig;
     call_args := call_args new_fig;
     trace_generator := trace_generator new_fig;
     has_template := has_template new_fig;
     has_color := has_color new_fig;
     _data_mappings := _data_mappings new_fig;
     has_subplots := has_subplots new_fig;
     listener := listener self;
     fig_lock := fig_lock self;
     attrs := attrs self |}.

(** [initialize_listener]; the bound method [self.on_update] it returns is
    given by the figure it is bound to. *)
Definition initialize_listener `{Host} (self : loc) (table : object)
    (orig_func : Callable) (orig_args : kwargs) (exec_ctx : ExecutionContext)
    (w : World) : M heap loc :=
  l <- lift (DeephavenFigureListener.init table orig_func orig_args
               exec_ctx w) ;;
  lst <- alloc (OListener l) ;;
  in_figure self (modify (λ f, set_listener f (Some lst))) ;;
  ret self.

(** [on_update] *)
Definition on_update `{Host} (self : loc) (update : object)
    (is_replay : bool) (w : World) : M heap unit :=
  lst <- in_figure self (gets listener) ;;
  match lst with
  | None => raise (ValueError "Listener not initialized")
  | Some lst =>
      lock <- in_figure self (gets fig_lock) ;;
      with_ (EvAcquire lock) (EvRelease lock) (
        new_fig <- in_listener lst
                     (DeephavenFigureListener.on_update update is_replay w) ;;
        replace_attr self "fig" (λ f, set_fig f (fig new_fig)) ;;
        replace_attr self "call" (λ f, set_call f (call new_fig)) ;;
        replace_attr self "call_args"
          (λ f, set_call_args f (call_args new_fig)) ;;
        replace_attr self "trace_generator"
          (λ f, set_trace_generator f (trace_generator new_fig)) ;;
        replace_attr self "has_template"
          (λ f, set_has_template f (has_template new_fig)) ;;
        replace_attr self "has_color"
          (λ f, set_has_color f (has_color new_fig)) ;;
        replace_attr self "_data_mappings"
          (λ f, set_data_mappings f (_data_mappings new_fig)) ;;
        replace_attr self "has_subplots"
          (λ f, set_has_subplots f (has_subplots new_fig)))
  end.

End DeephavenFigureUpdates.

(** ** DeephavenFigureConnection *)

Record DeephavenFigureConnection := mkDeephavenFigureConnection {
  figure_listener : loc;
  client_connection : MessageStream
}.

Module DeephavenFigureConnection.

Definition set_attr `{Libraries} (f : DeephavenFigure) (name : string)
    (v : pyval) : DeephavenFigure :=
  {| fig := fig f; call := call f; call_args := call_args f;
     trace_generator := trace_generator f; has_template := has_template f;
     has_color := has_color f; _data_mappings := _data_mappings f;
     has_subplots := has_subplots f; listener := listener f;
     fig_lock := fig_lock f; attrs := <[name := v]> (attrs f) |}.

(** [figure_listener.connection = client_connection]: on a listener this
    is its [connection] field; on a figure, which has no such field, the
    assignment adds an attribute to the instance. *)
Definition set_connection `{Libraries} (figure_listener : loc)
    (client_connection : MessageStream) : M heap unit := λ h,
  match h !! figure_listener with
  | Some (OListener _) =>
      in_listener figure_listener
        (modify (λ l, DeephavenFigureListener.set_connection l
                        (Some client_connection))) h
  | Some (OFigure _) =>
      in_figure figure_listener
        (modify (λ f, set_attr f "connection" (PObj client_connection))) h
  | None => raise (TypeError "no such object") h
  end.

(** [__init__] *)
Definition init `{Libraries} (figure_listener : loc)
    (client_connection : MessageStream) : M heap DeephavenFigureConnection :=
  set_connection figure_listener client_connection ;;
  ret {| figure_listener := figure_listener;
         client_connection := client_connection |}.

(** [self.figure_listener.execute(payload, references)]: only the listener
    class has an [execute] method. *)
Definition call_execute `{Libraries} (figure_listener : loc)
    (payload : pybytes) (references : list object)
  : M heap (pybytes * list object) := λ h,
  match h !! figure_listener with
  | Some (OListener _) =>
      in_listener figure_listener
        (DeephavenFigureListener.execute payload references) h
  | Some (OFigure _) => raise (AttributeError "DeephavenFigure" "execute") h
  | None => raise (TypeError "no such object") h
  end.

(** [on_data] *)
Definition on_data `{Libraries} (self : DeephavenFigureConnection)
    (payload : pybytes) (references : list object) : M heap unit :=
  pr <- call_execute (figure_listener self) payload references ;;
  emit (EvOnData (client_connection self) pr.1 pr.2).

(** [on_close] *)
Definition on_close `{Libraries} (self : DeephavenFigureConnection)
  : M heap unit :=
  ret ().

End DeephavenFigureConnection.

(** ** DeephavenFigureListenerType *)

Module DeephavenFigureListenerType.

(** [is_type]: [isinstance(obj, DeephavenFigure)] *)
Definition is_type `{Libraries} (h : heap) (obj : loc) : bool :=
  match h !! obj with
  | Some (OFigure _) => true
  | _ => false
  end.

(** [create_client_connection]; the [print] is left out. *)
Definition create_client_connection `{Libraries} (obj : loc)
    (connection : MessageStream) : M heap DeephavenFigureConnection :=
  DeephavenFigureConnection.init obj connection.

End DeephavenFigureListenerType.

(** ** DeephavenFigureType, the plugin names and ChartRegistration *)

(** [NAME] *)
Definition NAME : string := "deephaven.plot.express.DeephavenFigure".

Module DeephavenFigureType.

(** [name] *)
Definition name : string := NAME.

(** [is_type]: [isinstance(obj, DeephavenFigure)] *)
Definition is_type `{Libraries} (h : heap) (obj : loc) : bool :=
  match h !! obj with
  | Some (OFigure _) => true
  | _ => false
  end.

(** [to_bytes] *)
Definition to_bytes `{Libraries} (exporter : Exporter)
    (figure : DeephavenFigure) : result (pybytes * Exporter) :=
  export_figure exporter figure.

End DeephavenFigureType.

(** [DeephavenFigureListenerType.name]: [NAME + "New"] *)
Definition DeephavenFigureListenerType_name : string := NAME +:+ "New".

(** The two classes [register_into] hands to [callback.register]. *)
Inductive ObjectType :=
| TDeephavenFigureType
| TDeephavenFigureListenerType.

Module ChartRegistration.

(** [register_into]: [callback] is given by the classes registered with it
    so far, in order. *)
Definition register_into (callback : list ObjectType) : list ObjectType :=
  (callback ++ [TDeephavenFigureType]) ++ [TDeephavenFigureListenerType].

(** The [name] and [is_type] of a registered class. *)
Definition name_of (t : ObjectType) : string :=
  match t with
  | TDeephavenFigureType => DeephavenFigureType.name
  | TDeephavenFigureListenerType => DeephavenFigureListenerType_name
  end.

Definition is_type_of `{Libraries} (t : ObjectType) (h : heap) (obj : loc)
  : bool :=
  match t with
  | TDeephavenFigureType => DeephavenFigureType.is_type h obj
  | TDeephavenFigureListenerType => DeephavenFigureListenerType.is_type h obj
  end.

End ChartRegistration.

(** ** Derived notions used by the statements *)

(** The keys of the objects the exporter holds, in the order of
    [reference_list]. *)
Definition exported_keys (e : Exporter) : list (option nat) :=
  dict_key <$> Exporter.reference_list e.

(** The exporters that [reference] calls produce from [Exporter()]: the
    objects stored are hashable and no two of them are the same key, and the
    entry at position [i] is the Reference of its object with index [i]. *)
Definition Exporter_wf (e : Exporter) : Prop :=
  NoDup (exported_keys e) ∧
  ∀ i o r, references e !! i = Some (o, r) →
           index r = i ∧ obj r = o ∧ is_Some (dict_key o).

(** [e'] answers every key [e] knows with the same Reference. *)
Definition Exporter_extends (e e' : Exporter) : Prop :=
  ∀ k r, Exporter.getitem (references e) k = Some r →
         Exporter.getitem (references e') k = Some r.

(** The objects [get_json_links] passes to [exporter.reference], in call
    order: each mapping's table, once per column/property pair. *)
Definition referenced_tables (mappings : list DataMapping) : list object :=
  mappings ≫= λ m, (λ _, table_object (source_table m)) <$>
                     column_to_property m.

(** [DeephavenFigureListener.on_update], outcome by outcome. *)
Definition listener_on_update_outcome `{Host} (w : World)
    (l : DeephavenFigureListener)
  : outcome DeephavenFigureListener DeephavenFigure :=
  let l1 := DeephavenFigureListener.set_partitions l
              (DeephavenFigureListener.partition_count (table l) w) in
  let enter := EvEnter (exec_ctx l) in
  let exit := EvExit (exec_ctx l) in
  let ev := EvCall (orig_func l) (args_copy (orig_args l)) in
  match invoke (orig_func l) w (args_copy (orig_args l)) with
  | inl e => Outcome l1 [enter; ev; exit] (inl e)
  | inr (new_fig, _) =>
      match DeephavenFigure.to_dict new_fig (exporter l) with
      | inl e => Outcome l1 [enter; ev; exit] (inl e)
      | inr (_, e1) =>
          let l2 := DeephavenFigureListener.set_exporter l1 e1 in
          match connection l with
          | None => Outcome l2 [enter; ev; exit] (inr new_fig)
          | Some c =>
              match DeephavenFigure.to_dict new_fig e1 with
              | inl e => Outcome l2 [enter; ev; exit] (inl e)
              | inr (figure, e2) =>
                  Outcome (DeephavenFigureListener.set_exporter l2 e2)
                    [enter; ev;
                     EvOnData c
                       (encode (dumps
                          (DeephavenFigureListener.new_figure_message figure)))
                       (Exporter.reference_list e2);
                     exit]
                    (inr new_fig)
              end
          end
      end
  end.

(** [DeephavenFigure.on_update] for the figure [f] at [self] whose listener
    [l] is at [lst], outcome by outcome. *)
Definition figure_on_update_outcome `{Host} (w : World) (h : heap)
    (self lst : loc) (f : DeephavenFigure) (l : DeephavenFigureListener)
  : outcome heap unit :=
  let o := listener_on_update_outcome w l in
  let h1 := <[lst := OListener (out_state o)]> h in
  match out_val o with
  | inl e =>
      Outcome h1
        (EvAcquire (fig_lock f) :: out_trace o ++ [EvRelease (fig_lock f)])
        (inl e)
  | inr new_fig =>
      Outcome
        (<[self := OFigure (DeephavenFigureUpdates.assign_from new_fig f)]> h1)
        (EvAcquire (fig_lock f) ::
         out_trace o ++
         (EvReplace self <$> DeephavenFigureUpdates.replaced) ++
         [EvRelease (fig_lock f)])
        (inr ())
  end.

Definition is_lock_event `{Libraries} (ev : event) : bool :=
  match ev with
  | EvAcquire _ | EvRelease _ => true
  | _ => false
  end.

Definition is_push `{Libraries} (ev : event) : bool :=
  match ev with
  | EvOnData _ _ _ => true
  | _ => false
  end.

(** ** The readings of the spec that the code does not follow *)

(** Two [reference] calls on a new exporter get the same index exactly when
    they pass the same object, going by identity. *)
Definition indices_follow_identity (os : list object) : Prop :=
  let rs := (Exporter.reference_all Exporter.init os).1 in
  ∀ i j oi oj ri rj,
    os !! i = Some oi → os !! j = Some oj →
    rs !! i = Some (inr ri) → rs !! j = Some (inr rj) →
    (identity oi = identity oj ↔ index ri = index rj).

(** A push carries only the objects referenced while that update's payload
    was serialized. *)
Definition push_has_only_own_references `{Host} (w : World)
    (l : DeephavenFigureListener) : Prop :=
  ∀ new_fig x c payload refs o,
    invoke (orig_func l) w (args_copy (orig_args l)) = inr (new_fig, x) →
    EvOnData c payload refs ∈
      out_trace (DeephavenFigureListener.on_update (plain 0) false w l) →
    o ∈ refs →
    o ∈ referenced_tables (_data_mappings new_fig).


(** ** A small instance, for running the methods *)

Module Sample.

(** JSON text and bytes are given by the document they hold; a plotly
    figure by its JSON description. *)
Definition libraries : Libraries :=
  {| pystr := json; pybytes := json;
     dumps := id; loads := id; encode := id;
     loads_dumps := λ _, eq_refl;
     Figure := json; Figure_to_json := id |}.

Definition trades : Table := {| table_id := 10; table_key := 10 |}.
Definition quotes : Table := {| table_id := 11; table_key := 11 |}.
Definition line : Callable := plain 20.
Definition client : MessageStream := plain 30.
Definition ctx : ExecutionContext := plain 40.
Definition lock : Lock := plain 50.
Definition update : object := plain 0.

Definition args : kwargs :=
  {[ "args" := PDict {[ "x" := PStr "Timestamp"; "y" := PStr "Price" ]} ]}.

Definition chart (t : Table) : @DeephavenFigure libraries :=
  @DeephavenFigure.init libraries
    (Some (JObj [("data", JArr []); ("layout", JObj [])]))
    (Some line) (Some args)
    (Some [{| column_to_property := [("Timestamp", "x"); ("Price", "y")];
              source_table := t; offset := 0 |}])
    None None None None lock.

(** The chart is drawn from [trades] at first, from [quotes] at the next
    notification, and construction fails after that. *)
Definition host : @Host libraries :=
  {| World := nat;
     invoke := λ f w a,
       match w with
       | 0%nat => inr (chart trades, PNone)
       | 1%nat => inr (chart quotes, PNone)
       | _ => inl (Raised (plain 99))
       end;
     isinstance_PartitionedTable := λ _, false;
     constituent_tables := λ _ _, [] |}.

(** The listener that [__init__] makes for [trades]. *)
Definition new_listener : @DeephavenFigureListener libraries :=
  {| table := table_object trades;
     partitions := -1;
     deephaven_figure := None;
     orig_func := line;
     orig_args :=
       {[ "args" := PDict {[ "x" := PStr "Timestamp"; "y" := PStr "Price";
                             "table" := PObj (table_object trades) ]} ]};
     connection := None;
     exporter := Exporter.init;
     exec_ctx := ctx |}.

(** The same listener with a connection attached. *)
Definition listener0 : @DeephavenFigureListener libraries :=
  @DeephavenFigureListener.set_connection libraries new_listener
    (Some client).

(** The same listener after its first notification. *)
Definition listener1 : @DeephavenFigureListener libraries :=
  out_state
    (@DeephavenFigureListener.on_update libraries host update false 0%nat
       listener0).

(** A heap with one figure, at location 0, its listener not initialized. *)
Definition heap0 : gmap loc (@pyobject libraries) :=
  {[ 0%nat := @OFigure libraries (chart trades) ]}.

(** The heap after [initialize_listener] on that figure. *)
Definition heap1 : gmap loc (@pyobject libraries) :=
  out_state
    (@DeephavenFigureUpdates.initialize_listener libraries host 0%nat
       (table_object trades) line args ctx 0%nat heap0).

End Sample.

(** A second host over the same libraries: the table is partitioned in two
    and the construction function returns [DeephavenFigure()], a payload
    with no plotly figure. *)
Module Blank.

Definition payload : @DeephavenFigure Sample.libraries :=
  @DeephavenFigure.init Sample.libraries None None None None None None None
    None Sample.lock.

Definition host : @Host Sample.libraries :=
  {| World := unit;
     invoke := λ f w a, inr (payload, PNone);
     isinstance_PartitionedTable := λ _, true;
     constituent_tables := λ _ _,
       [table_object Sample.trades; table_object Sample.quotes] |}.

End Blank.

(** * Properties *)

(** ** The sample instance is what the constructors build *)

Example sample_new_listener :
  @DeephavenFigureListener.init Sample.libraries Sample.host
    (table_object Sample.trades) Sample.line Sample.args Sample.ctx 0%nat =
  inr Sample.new_listener.
Proof. vm_compute. reflexivity. Qed.

Example sample_heap1_figure :
  Sample.heap1 !! 0%nat =
  Some (@OFigure Sample.libraries
          (@DeephavenFigureUpdates.set_listener Sample.libraries
             (Sample.chart Sample.trades) (Some 1%nat))).
Proof. vm_compute. reflexivity. Qed.

Example sample_heap1_listener :
  Sample.heap1 !! 1%nat = Some (@OListener Sample.libraries Sample.new_listener).
Proof. vm_compute. reflexivity. Qed.

(** ** Exporter *)

Section exporter.
Implicit Types (e : Exporter) (o : object) (r : Reference) (k : nat).
Implicit Types (d : list (object * Reference)).

Lemma getitem_None d k :
  Exporter.getitem d k = None ↔ Some k ∉ dict_key <$> d.*1.
Proof.
  induction d as [|[o r] d IH]; simpl.
  - split; [intros _; apply not_elem_of_nil | done].
  - case_decide as Hk.
    + split; [done | intros []; rewrite Hk; left].
    + rewrite IH, not_elem_of_cons.
      split; [by intros ?; split; [congruence|] | by intros [_ ?]].
Qed.

Lemma getitem_Some d k r :
  Exporter.getitem d k = Some r →
  ∃ i o, d !! i = Some (o, r) ∧ dict_key o = Some k.
Proof.
  induction d as [|[o r'] d IH]; simpl; [done|].
  case_decide as Hk.
  - intros [= ->]. by exists 0%nat, o.
  - intros (i & o' & Hi & Ho')%IH. by exists (S i), o'.
Qed.

Lemma getitem_app d d' k r :
  Exporter.getitem d k = Some r → Exporter.getitem (d ++ d') k = Some r.
Proof.
  induction d as [|[o r'] d IH]; simpl; [done|].
  case_decide; [done | apply IH].
Qed.

Lemma getitem_snoc_new d k o r :
  dict_key o = Some k →
  Exporter.getitem d k = None → Exporter.getitem (d ++ [(o, r)]) k = Some r.
Proof.
  intros Ho. induction d as [|[o' r'] d IH]; simpl.
  - intros _. by rewrite decide_True.
  - case_decide; [done | apply IH].
Qed.

Lemma Exporter_wf_init : Exporter_wf Exporter.init.
Proof. split; [constructor | by intros i o r]. Qed.

Lemma reference_list_length e :
  length (Exporter.reference_list e) = length (references e).
Proof. unfold Exporter.reference_list. by rewrite length_fmap. Qed.

Lemma exported_keys_length e :
  length (exported_keys e) = length (Exporter.reference_list e).
Proof. unfold exported_keys. by rewrite length_fmap. Qed.

(** [reference] on a hashable and on an unhashable object. *)
Lemma reference_hashable e o k :
  dict_key o = Some k →
  Exporter.reference e o = inr (Exporter.reference_hashed e k o).
Proof. unfold Exporter.reference. by intros ->. Qed.

Lemma reference_unhashable e o :
  dict_key o = None →
  Exporter.reference e o = inl (TypeError "unhashable type").
Proof. unfold Exporter.reference. by intros ->. Qed.

Lemma reference_table_reference e (t : Table) :
  Exporter.reference e (table_object t) = inr (DataMapping.reference_table e t).
Proof. done. Qed.

(** The two ways a [reference] call on a hashable object goes. *)
Lemma reference_cases e k o :
  (∃ r, Exporter.getitem (references e) k = Some r ∧
        Some k ∈ exported_keys e ∧
        Exporter.reference_hashed e k o = (r, e)) ∨
  ((Some k ∉ exported_keys e) ∧
   Exporter.getitem (references e) k = None ∧
   Exporter.reference_hashed e k o =
     ({| index := length (references e); obj := o |},
      {| references := references e ++
           [(o, {| index := length (references e); obj := o |})] |})).
Proof.
  unfold Exporter.reference_hashed.
  destruct (Exporter.getitem (references e) k) as [r|] eqn:Hg.
  - left. exists r. split; [done|]. split; [|done].
    destruct (decide (Some k ∈ exported_keys e)) as [|Hn]; [done|].
    apply getitem_None in Hn. congruence.
  - right. by apply getitem_None in Hg.
Qed.

(** Objects are only ever appended, and only under a key that is new. *)
Lemma reference_keys e k o :
  Exporter.reference_list (Exporter.reference_hashed e k o).2 =
  Exporter.reference_list e ++
    (if decide (Some k ∈ exported_keys e) then [] else [o]).
Proof.
  destruct (reference_cases e k o) as [(r & _ & Hin & ->)|(Hn & _ & ->)]; simpl.
  - rewrite decide_True by done. by rewrite app_nil_r.
  - rewrite decide_False by done.
    unfold Exporter.reference_list. simpl. by rewrite fmap_app.
Qed.

(** A Reference, once given, is given again by every later state. *)
Lemma reference_extends e k o :
  dict_key o = Some k →
  Exporter_extends e (Exporter.reference_hashed e k o).2 ∧
  Exporter.getitem (references (Exporter.reference_hashed e k o).2) k =
    Some (Exporter.reference_hashed e k o).1.
Proof.
  intros Ho.
  destruct (reference_cases e k o) as [(r & Hg & _ & ->)|(_ & Hg & ->)]; simpl.
  - split; [by intros ??|done].
  - split; [intros k' r'; apply getitem_app | by apply getitem_snoc_new].
Qed.

Lemma reference_known e k o r :
  Exporter.getitem (references e) k = Some r →
  Exporter.reference_hashed e k o = (r, e).
Proof. unfold Exporter.reference_hashed. by intros ->. Qed.

Lemma reference_spec e k o :
  dict_key o = Some k →
  Exporter_wf e →
  let r := (Exporter.reference_hashed e k o).1 in
  let e' := (Exporter.reference_hashed e k o).2 in
  Exporter_wf e' ∧ dict_key (obj r) = Some k ∧
  Exporter.reference_list e' !! index r = Some (obj r) ∧
  ((Some k ∉ exported_keys e) →
   index r = length (Exporter.reference_list e) ∧ obj r = o).
Proof.
  intros Ho [Hnd Hix]. pose proof (reference_keys e k o) as Hl.
  destruct (reference_cases e k o) as [(r & Hg & Hin & Hr)|(Hn & _ & Hr)];
    rewrite Hr in *; simpl in *.
  - apply getitem_Some in Hg as (i & o' & Hi & Ho').
    destruct (Hix _ _ _ Hi) as (-> & -> & _).
    split; [done|]. split; [done|]. split; [|done].
    unfold Exporter.reference_list. by rewrite list_lookup_fmap, Hi.
  - rewrite decide_False in Hl by done.
    split; [split|].
    + unfold exported_keys. rewrite Hl, fmap_app. apply NoDup_app.
      split; [done|]. split.
      * intros x Hx Hx'. cbn in Hx'. apply list_elem_of_singleton in Hx'.
        subst x. rewrite Ho in Hx. done.
      * apply NoDup_singleton.
    + simpl. intros i o' r Hi.
      apply lookup_app_Some in Hi as [Hi|[Hle Hi]]; [by eapply Hix|].
      apply list_lookup_singleton_Some in Hi as [Hi [= <- <-]]. simpl.
      split; [lia|]. split; [done|]. by rewrite Ho.
    + split; [done|]. split.
      * rewrite Hl, <- reference_list_length.
        by rewrite lookup_app_r, Nat.sub_diag.
      * intros _. by rewrite reference_list_length.
Qed.

(** One call of a run. *)
Lemma reference_all_cons e o os :
  Exporter.reference_all e (o :: os) =
  match dict_key o with
  | Some k =>
      let e1 := (Exporter.reference_hashed e k o).2 in
      (inr (Exporter.reference_hashed e k o).1 ::
         (Exporter.reference_all e1 os).1,
       (Exporter.reference_all e1 os).2)
  | None =>
      (inl (TypeError "unhashable type") :: (Exporter.reference_all e os).1,
       (Exporter.reference_all e os).2)
  end.
Proof.
  simpl. unfold Exporter.reference. destruct (dict_key o) as [k|].
  - destruct (Exporter.reference_hashed e k o) as [r e1]. simpl.
    by destruct (Exporter.reference_all e1 os).
  - by destruct (Exporter.reference_all e os).
Qed.

(** Objects and keys after a run of calls, with no assumption on the
    start. *)
Lemma reference_all_keys os : ∀ e,
  Exporter.reference_list e `prefix_of`
    Exporter.reference_list (Exporter.reference_all e os).2 ∧
  (∀ x, x ∈ Exporter.reference_list (Exporter.reference_all e os).2 →
        x ∈ Exporter.reference_list e ∨ x ∈ os) ∧
  (∀ k, Some k ∈ exported_keys (Exporter.reference_all e os).2 ↔
        Some k ∈ exported_keys e ∨ Some k ∈ dict_key <$> os).
Proof.
  induction os as [|o os IH]; intros e.
  - simpl. split; [done|]. split; [by left|].
    intros k. rewrite elem_of_nil. tauto.
  - rewrite reference_all_cons. destruct (dict_key o) as [k|] eqn:Ho.
    + pose proof (reference_keys e k o) as Hl. cbn zeta. cbn [snd].
      destruct (IH (Exporter.reference_hashed e k o).2) as (Hpre & Hel & Hk).
      split; [|split].
      * etrans; [|exact Hpre]. rewrite Hl. by apply prefix_app_r.
      * intros x Hx. destruct (Hel x Hx) as [Hx'|Hx'].
        -- rewrite Hl, elem_of_app in Hx'. destruct Hx' as [?|Hx']; [by left|].
           right. case_decide; [by apply elem_of_nil in Hx'|].
           apply list_elem_of_singleton in Hx' as ->. left.
        -- right. by right.
      * intros k'. rewrite Hk. unfold exported_keys at 1.
        rewrite Hl, fmap_app, elem_of_app, fmap_cons, elem_of_cons, Ho.
        fold (exported_keys e).
        case_decide as Hin; cbn.
        -- rewrite elem_of_nil. split; [tauto|].
           intros [?|[[= ->]|?]]; auto.
        -- rewrite list_elem_of_singleton, Ho. tauto.
    + cbn [snd]. destruct (IH e) as (Hpre & Hel & Hk).
      split; [done|]. split.
      * intros x Hx. destruct (Hel x Hx); [by left|right; by right].
      * intros k'. rewrite Hk, fmap_cons, elem_of_cons, Ho.
        split; [tauto|]. intros [?|[[=]|?]]; auto.
Qed.

Lemma reference_all_take_prefix os : ∀ e i,
  Exporter.reference_list (Exporter.reference_all e (take i os)).2 `prefix_of`
  Exporter.reference_list (Exporter.reference_all e os).2.
Proof.
  induction os as [|o os IH]; intros e [|i]; simpl take.
  - done.
  - done.
  - apply reference_all_keys.
  - rewrite !reference_all_cons. destruct (dict_key o); cbn [snd]; apply IH.
Qed.

Lemma reference_all_spec os : ∀ e,
  Exporter_wf e →
  let rs := (Exporter.reference_all e os).1 in
  let e' := (Exporter.reference_all e os).2 in
  Exporter_wf e' ∧ length rs = length os ∧
  ∀ i o, os !! i = Some o →
    match dict_key o with
    | None => rs !! i = Some (inl (TypeError "unhashable type"))
    | Some k =>
        ∃ r, rs !! i = Some (inr r) ∧
             dict_key (obj r) = Some k ∧
             Exporter.getitem (references e') k = Some r ∧
             Exporter.reference_list e' !! index r = Some (obj r) ∧
             let ei := (Exporter.reference_all e (take i os)).2 in
             ((Some k ∉ exported_keys ei) →
              index r = length (Exporter.reference_list ei) ∧ obj r = o)
    end.
Proof.
  induction os as [|o os IH]; intros e Hwf.
  - simpl. split; [done|]. split; [done|]. by intros i o.
  - rewrite reference_all_cons. destruct (dict_key o) as [k|] eqn:Ho.
    + destruct (reference_spec e k o Ho Hwf) as (Hwf1 & Hkey & Hlk & Hidx).
      destruct (reference_extends e k o Ho) as [_ Hg].
      set (r0 := (Exporter.reference_hashed e k o).1) in *.
      set (e1 := (Exporter.reference_hashed e k o).2) in *.
      destruct (reference_all_keys os e1) as (Hpre & _ & _).
      destruct (IH e1 Hwf1) as (Hwf' & Hlen & Hcalls).
      cbn zeta. cbn [fst snd].
      split; [done|]. split; [simpl; by rewrite Hlen|].
      intros [|i] o' Ho'; simpl in Ho'.
      * injection Ho' as <-. rewrite Ho. exists r0.
        split; [done|]. split; [done|]. split.
        { clear -Hg. revert Hg. generalize e1.
          induction os as [|o' os IH']; intros e2 Hg; [done|].
          rewrite reference_all_cons. destruct (dict_key o') as [k'|] eqn:Ho'.
          - cbn [snd]. apply IH'.
            by apply (proj1 (reference_extends e2 k' o' Ho')).
          - cbn [snd]. by apply IH'. }
        split; [by eapply prefix_lookup_Some|]. done.
      * specialize (Hcalls i o' Ho'). destruct (dict_key o') as [k'|]; [|done].
        destruct Hcalls as (r & Hr & Hkr & Hgr & Hlr & Hi).
        exists r. split; [done|]. split; [done|]. split; [done|].
        split; [done|]. simpl take. rewrite reference_all_cons, Ho.
        cbn [snd]. exact Hi.
    + destruct (IH e Hwf) as (Hwf' & Hlen & Hcalls). cbn [fst snd].
      split; [done|]. split; [simpl; by rewrite Hlen|].
      intros [|i] o' Ho'; simpl in Ho'.
      * injection Ho' as <-. by rewrite Ho.
      * specialize (Hcalls i o' Ho'). destruct (dict_key o') as [k'|]; [|done].
        destruct Hcalls as (r & Hr & Hkr & Hgr & Hlr & Hi).
        exists r. split; [done|]. split; [done|]. split; [done|].
        split; [done|]. simpl take. rewrite reference_all_cons, Ho.
        cbn [snd]. exact Hi.
Qed.

Lemma reference_all_extends os : ∀ e,
  Exporter_extends e (Exporter.reference_all e os).2.
Proof.
  induction os as [|o os IH]; intros e; [by intros ??|].
  rewrite reference_all_cons. destruct (dict_key o) as [k|] eqn:Ho.
  - cbn [snd]. intros k' r' Hg. apply IH.
    by apply (proj1 (reference_extends e k o Ho)).
  - cbn [snd]. apply IH.
Qed.

(** From a new exporter: the keys held are the keys passed. *)
Lemma reference_all_init_keys os k :
  Some k ∈ exported_keys (Exporter.reference_all Exporter.init os).2 ↔
  k ∈ omap dict_key os.
Proof.
  destruct (reference_all_keys os Exporter.init) as (_ & _ & Hk).
  rewrite Hk. unfold exported_keys at 1. simpl.
  rewrite elem_of_nil, list_elem_of_fmap, list_elem_of_omap.
  split.
  - intros [[]|(o & Ho & Hin)]. by exists o.
  - intros (o & Hin & Ho). right. by exists o.
Qed.

Lemma wf_keys_hashable e x :
  Exporter_wf e → x ∈ exported_keys e → is_Some x.
Proof.
  intros [_ Hix] Hx. unfold exported_keys, Exporter.reference_list in Hx.
  apply list_elem_of_fmap in Hx as (o & -> & Hin).
  apply list_elem_of_fmap in Hin as ([o' r] & -> & Hin).
  apply list_elem_of_lookup in Hin as [i Hi].
  by destruct (Hix _ _ _ Hi) as (_ & _ & ?).
Qed.

Lemma reference_all_init_length os :
  length (Exporter.reference_list
            (Exporter.reference_all Exporter.init os).2) =
  length (remove_dups (omap dict_key os)).
Proof.
  destruct (reference_all_spec os _ Exporter_wf_init) as (Hwf & _).
  pose proof Hwf as [Hnd _].
  rewrite <- exported_keys_length.
  rewrite <- (length_fmap Some (remove_dups _)).
  apply Permutation_length, NoDup_Permutation; [done| |].
  - apply NoDup_fmap_2; [apply _|apply NoDup_remove_dups].
  - intros x. split.
    + intros Hx. destruct (wf_keys_hashable _ _ Hwf Hx) as [k ->].
      apply list_elem_of_fmap. exists k. split; [done|].
      rewrite elem_of_remove_dups.
      by apply (proj1 (reference_all_init_keys os k)).
    + intros (k & -> & Hk)%list_elem_of_fmap.
      rewrite elem_of_remove_dups in Hk.
      by apply (proj2 (reference_all_init_keys os k)).
Qed.

End exporter.

(** C2, as stated, fails: two objects with different identities that are
    equal as dict keys are referenced one after the other on a new exporter,
    and both calls return index 0. *)
Lemma equal_objects_share_an_index :
  ¬ indices_follow_identity
      [ {| identity := 7; dict_key := Some 1%nat |};
        {| identity := 8; dict_key := Some 1%nat |} ].
Proof.
  intros Hid.
  specialize (Hid 0%nat 1%nat _ _ _ _ eq_refl eq_refl eq_refl eq_refl).
  cbn in Hid. destruct Hid as [_ Hid]. discriminate (Hid eq_refl).
Qed.

(** C2, amended.  Take any sequence [os] of [reference] calls on a new
    exporter, [rs] what the calls returned and [e] the exporter afterwards.
    A call raises [TypeError] exactly when its object is not hashable, and
    returns a Reference otherwise.  Two calls that return get the same index
    exactly when their objects are the same dict key; a call that passes a
    key for the first time gets as index the number of distinct keys passed
    before it and a Reference to its own object, so indices start at 0 and
    grow by one in first-seen order with no gap and no reuse.
    [reference_list] has one entry per distinct key, the entry at position
    [i] being the object whose Reference carries index [i], which is the
    first object passed with that key.  When every object is equal to itself
    only, the same index means the same identity. *)
Theorem references_follow_dict_keys (os : list object) :
  let rs := (Exporter.reference_all Exporter.init os).1 in
  let e := (Exporter.reference_all Exporter.init os).2 in
  length rs = length os ∧
  (∀ i o,
     os !! i = Some o →
     match dict_key o with
     | None => rs !! i = Some (inl (TypeError "unhashable type"))
     | Some _ => ∃ r, rs !! i = Some (inr r)
     end) ∧
  (∀ i j oi oj ri rj,
     os !! i = Some oi → os !! j = Some oj →
     rs !! i = Some (inr ri) → rs !! j = Some (inr rj) →
     (dict_key oi = dict_key oj ↔ index ri = index rj)) ∧
  (∀ i o r,
     os !! i = Some o → rs !! i = Some (inr r) →
     dict_key o ∉ dict_key <$> take i os →
     index r = length (remove_dups (omap dict_key (take i os))) ∧
     obj r = o) ∧
  length (Exporter.reference_list e) =
    length (remove_dups (omap dict_key os)) ∧
  (∀ i o r,
     os !! i = Some o → rs !! i = Some (inr r) →
     dict_key (obj r) = dict_key o ∧
     Exporter.reference_list e !! index r = Some (obj r)) ∧
  (∀ k o,
     Exporter.reference_list e !! k = Some o →
     ∃ i r, os !! i = Some o ∧ rs !! i = Some (inr r) ∧
            index r = k ∧ obj r = o) ∧
  ((∀ o, o ∈ os → dict_key o = Some (identity o)) →
   ∀ i j oi oj ri rj,
     os !! i = Some oi → os !! j = Some oj →
     rs !! i = Some (inr ri) → rs !! j = Some (inr rj) →
     (identity oi = identity oj ↔ index ri = index rj)).
Proof.
  intros rs e.
  destruct (reference_all_spec os _ Exporter_wf_init)
    as (Hwf & Hlen & Hcalls).
  fold rs e in Hwf, Hlen, Hcalls. pose proof Hwf as [Hnd Hix].
  assert (∀ i o r,
    os !! i = Some o → rs !! i = Some (inr r) →
    ∃ k, dict_key o = Some k ∧ dict_key (obj r) = Some k ∧
         Exporter.getitem (references e) k = Some r ∧
         Exporter.reference_list e !! index r = Some (obj r) ∧
         let ei := (Exporter.reference_all Exporter.init (take i os)).2 in
         ((Some k ∉ exported_keys ei) →
          index r = length (Exporter.reference_list ei) ∧ obj r = o))
    as Hcall.
  { intros i o r Ho Hr. specialize (Hcalls i o Ho).
    destruct (dict_key o) as [k|]; [|congruence].
    destruct Hcalls as (r' & Hr' & Hrest).
    assert (r' = r) as -> by congruence. by exists k. }
  assert (∀ i j oi oj ri rj,
    os !! i = Some oi → os !! j = Some oj →
    rs !! i = Some (inr ri) → rs !! j = Some (inr rj) →
    (dict_key oi = dict_key oj ↔ index ri = index rj)) as Hsame.
  { intros i j oi oj ri rj Hoi Hoj Hri Hrj.
    destruct (Hcall _ _ _ Hoi Hri) as (ki & Hki & Hkri & Hgi & Hli & _).
    destruct (Hcall _ _ _ Hoj Hrj) as (kj & Hkj & Hkrj & Hgj & Hlj & _).
    split.
    - intros Heq. assert (ki = kj) as -> by congruence. congruence.
    - intros Heq. rewrite Heq in Hli. congruence. }
  split; [done|]. split; [|split; [done|split; [|split; [|split; [|split]]]]].
  - intros i o Ho. specialize (Hcalls i o Ho).
    destruct (dict_key o) as [k|]; [|done].
    destruct Hcalls as (r & Hr & _). by exists r.
  - intros i o r Ho Hr Hfresh.
    destruct (Hcall _ _ _ Ho Hr) as (k & Hk & _ & _ & _ & Hi). simpl in Hi.
    rewrite <- reference_all_init_length. apply Hi.
    intros Hin. apply Hfresh. rewrite Hk.
    apply (proj1 (reference_all_init_keys _ _)) in Hin.
    apply list_elem_of_omap in Hin as (o' & Hin & Ho').
    apply list_elem_of_fmap. by exists o'.
  - apply reference_all_init_length.
  - intros i o r Ho Hr.
    destruct (Hcall _ _ _ Ho Hr) as (k & Hk & Hkr & _ & Hl & _).
    split; [congruence|done].
  - intros k o Hk.
    assert (o ∈ os) as [i Hi]%list_elem_of_lookup.
    { destruct (reference_all_keys os Exporter.init) as (_ & Hel & _).
      destruct (Hel o) as [Hin|Hin]; [by eapply list_elem_of_lookup_2| |done].
      by apply elem_of_nil in Hin. }
    assert (is_Some (dict_key o)) as [ko Hko].
    { eapply wf_keys_hashable; [exact Hwf|].
      apply list_elem_of_fmap. exists o. split; [done|].
      by eapply list_elem_of_lookup_2. }
    pose proof (Hcalls i o Hi) as Hc. rewrite Hko in Hc.
    destruct Hc as (r & Hr & Hkr & _ & Hl & _).
    assert (index r = k) as Hidx.
    { eapply (NoDup_lookup _ _ _ (Some ko) Hnd); unfold exported_keys;
        rewrite list_lookup_fmap.
      - by rewrite Hl; simpl; rewrite Hkr.
      - by rewrite Hk; simpl; rewrite Hko. }
    exists i, r. split; [done|]. split; [done|]. split; [done|].
    rewrite Hidx in Hl. congruence.
  - intros Hplain i j oi oj ri rj Hoi Hoj Hri Hrj.
    rewrite <- (Hsame i j oi oj ri rj Hoi Hoj Hri Hrj).
    rewrite (Hplain oi), (Hplain oj) by by eapply list_elem_of_lookup_2.
    split; [by intros ->|by intros [= ->]].
Qed.

Example sample_reference_run :
  (Exporter.reference_all Exporter.init
     [ {| identity := 7; dict_key := Some 1%nat |};
       {| identity := 9; dict_key := None |};
       plain 2;
       {| identity := 8; dict_key := Some 1%nat |} ]).1 =
  [ inr {| index := 0; obj := {| identity := 7; dict_key := Some 1%nat |} |};
    inl (TypeError "unhashable type");
    inr {| index := 1; obj := plain 2 |};
    inr {| index := 0; obj := {| identity := 7; dict_key := Some 1%nat |} |} ].
Proof. reflexivity. Qed.

(** ** Links *)

Section links.
Implicit Types (e : Exporter) (m : DataMapping) (ms : list DataMapping).

Lemma Exporter_extends_refl e : Exporter_extends e e.
Proof. by intros o r. Qed.

Lemma Exporter_extends_trans e1 e2 e3 :
  Exporter_extends e1 e2 → Exporter_extends e2 e3 → Exporter_extends e1 e3.
Proof. intros H12 H23 o r Ho. by apply H23, H12. Qed.

Lemma reference_all_app os1 os2 e :
  (Exporter.reference_all e (os1 ++ os2)).2 =
  (Exporter.reference_all (Exporter.reference_all e os1).2 os2).2.
Proof.
  revert e. induction os1 as [|o os1 IH]; intros e; [done|].
  rewrite <- app_comm_cons, !reference_all_cons.
  destruct (dict_key o); cbn [snd]; apply IH.
Qed.

Lemma links_exporter m cps e :
  (DataMapping.links m cps e).2 =
  (Exporter.reference_all e
     ((λ _, table_object (source_table m)) <$> cps)).2.
Proof.
  revert e. induction cps as [|cp cps IH]; intros e; [done|].
  rewrite fmap_cons, reference_all_cons. cbn [dict_key table_object snd].
  simpl. unfold DataMapping.reference_table.
  destruct (Exporter.reference_hashed e _ _) as [r e1]. cbn [snd].
  specialize (IH e1). by destruct (DataMapping.links m cps e1) as [ls e2].
Qed.

Lemma json_links_exporter ms e :
  (DeephavenFigure.json_links ms e).2 =
  (Exporter.reference_all e (referenced_tables ms)).2.
Proof.
  revert e. induction ms as [|m ms IH]; intros e; [done|].
  unfold referenced_tables. rewrite bind_cons. fold (referenced_tables ms).
  rewrite reference_all_app, <- links_exporter, <- IH. simpl.
  unfold DataMapping.get_links.
  destruct (DataMapping.links m (column_to_property m) e) as [ls e1]. simpl.
  by destruct (DeephavenFigure.json_links ms e1).
Qed.

(** What [links] returns, read off any later state of the exporter. *)
Lemma links_flat m cps : ∀ e e'',
  Exporter_extends (DataMapping.links m cps e).2 e'' →
  Exporter_extends e e'' ∧
  (DataMapping.links m cps e).1 =
    match Exporter.getitem (references e'') (table_key (source_table m)) with
    | Some r => (λ cp, DataMapping.link m cp r) <$> cps
    | None => []
    end ∧
  DataMapping.links m cps e'' = ((DataMapping.links m cps e).1, e'').
Proof.
  induction cps as [|cp cps IH]; intros e e'' Hext; simpl in *.
  - split; [done|]. split; [|done]. by destruct (Exporter.getitem _ _).
  - unfold DataMapping.reference_table in *.
    destruct (reference_extends e (table_key (source_table m))
                (table_object (source_table m)) eq_refl) as [He1 Hg1].
    destruct (Exporter.reference_hashed e _ _) as [r e1]. simpl in *.
    specialize (IH e1 e'').
    destruct (DataMapping.links m cps e1) as [ls e2]. simpl in *.
    destruct (IH Hext) as (He1'' & Hls & Hagain).
    pose proof (He1'' _ _ Hg1) as Hg''.
    split; [by eapply Exporter_extends_trans|].
    rewrite Hg''. split; [by rewrite Hls, Hg''|].
    rewrite (reference_known _ _ _ _ Hg''). by rewrite Hagain.
Qed.

Lemma json_links_flat ms : ∀ e e'',
  Exporter_extends (DeephavenFigure.json_links ms e).2 e'' →
  Exporter_extends e e'' ∧
  (DeephavenFigure.json_links ms e).1 =
    (ms ≫= λ m,
       match Exporter.getitem (references e'')
               (table_key (source_table m)) with
       | Some r => (λ cp, DataMapping.link m cp r) <$> column_to_property m
       | None => []
       end) ∧
  DeephavenFigure.json_links ms e'' = ((DeephavenFigure.json_links ms e).1, e'').
Proof.
  induction ms as [|m ms IH]; intros e e'' Hext; simpl in *; [done|].
  unfold DataMapping.get_links in *.
  pose proof (links_flat m (column_to_property m) e) as Hm.
  destruct (DataMapping.links m (column_to_property m) e) as [ls e1].
  simpl in *. specialize (IH e1 e'').
  destruct (DeephavenFigure.json_links ms e1) as [ls' e2]. simpl in *.
  destruct (IH Hext) as (He1'' & Hls' & Hagain).
  destruct (Hm e'' He1'') as (He'' & Hls & Hagain1).
  split; [done|]. rewrite Hagain1, Hagain. simpl.
  split; [|done]. by rewrite Hls, Hls'.
Qed.

Lemma to_dict_again `{Libraries} (f : DeephavenFigure) e d e1 :
  DeephavenFigure.to_dict f e = inr (d, e1) →
  DeephavenFigure.to_dict f e1 = inr (d, e1).
Proof.
  unfold DeephavenFigure.to_dict, DeephavenFigure.to_json,
    DeephavenFigure.get_json_links.
  destruct (fig f) as [pf|]; [|done].
  pose proof (json_links_flat (_data_mappings f) e) as Hflat.
  destruct (DeephavenFigure.json_links (_data_mappings f) e) as [ls e'].
  simpl in *. intros [= <- <-].
  destruct (Hflat e' (Exporter_extends_refl _)) as (_ & _ & ->). done.
Qed.
End links.

(** ** Running methods *)

Section monad.
Context `{Libraries} {S : Type}.
Implicit Types (s : S).

Lemma bind_run {A B} (m : M S A) (k : A → M S B) s s1 t a :
  m s = Outcome s1 t (inr a) →
  bind m k s =
  Outcome (out_state (k a s1)) (t ++ out_trace (k a s1)) (out_val (k a s1)).
Proof. unfold bind. by intros ->. Qed.

Lemma bind_fail {A B} (m : M S A) (k : A → M S B) s s1 t e :
  m s = Outcome s1 t (inl e) →
  bind m k s = Outcome s1 t (inl e).
Proof. unfold bind. by intros ->. Qed.

Lemma bind_pure {A B} (m : M S A) (k : A → M S B) s a :
  m s = Outcome s [] (inr a) → bind m k s = k a s.
Proof. intros Hm. rewrite (bind_run _ _ _ _ _ _ Hm). by destruct (k a s). Qed.

Lemma bind_gets {A B} (f : S → A) (k : A → M S B) s :
  bind (gets f) k s = k (f s) s.
Proof. by apply bind_pure. Qed.

Lemma bind_modify {B} (f : S → S) (k : unit → M S B) s :
  bind (modify f) k s = k () (f s).
Proof.
  rewrite (bind_run _ _ _ (f s) [] ()) by done. by destruct (k () (f s)).
Qed.

Lemma bind_emit {B} ev (k : unit → M S B) s :
  bind (emit ev) k s =
  Outcome (out_state (k () s)) (ev :: out_trace (k () s)) (out_val (k () s)).
Proof. by rewrite (bind_run _ _ _ s [ev] ()). Qed.

Lemma bind_lift_inr {A B} (a : A) (k : A → M S B) s :
  bind (lift (inr a)) k s = k a s.
Proof. by apply bind_pure. Qed.

Lemma bind_lift_inl {A B} e (k : A → M S B) s :
  bind (lift (inl e)) k s = Outcome s [] (inl e).
Proof. by apply bind_fail. Qed.

Lemma bind_assoc {A B C} (m : M S A) (f : A → M S B) (g : B → M S C) s :
  bind (bind m f) g s = bind m (λ x, bind (f x) g) s.
Proof.
  unfold bind. destruct (m s) as [s1 t1 [e|a]]; simpl; [done|].
  destruct (f a s1) as [s2 t2 [e|b]]; simpl; [done|].
  by rewrite app_assoc.
Qed.
End monad.

(** ** Listener and figure updates, outcome by outcome *)

Section listener.
Context `{Host}.
Implicit Types (l : DeephavenFigureListener) (f : DeephavenFigure).

Lemma to_dict_payload f e pf :
  fig f = Some pf →
  DeephavenFigure.to_dict f e =
  inr (DeephavenFigure.payload_dict (loads (Figure_to_json pf))
         (DeephavenFigure.get_json_links f e).1
         (has_template f) (has_color f),
       (DeephavenFigure.get_json_links f e).2).
Proof.
  intros Hfig. unfold DeephavenFigure.to_dict, DeephavenFigure.to_json.
  rewrite Hfig. destruct (DeephavenFigure.get_json_links f e) as [ls e1].
  cbn [fst snd]. by rewrite loads_dumps.
Qed.

Lemma to_dict_self_ok (new_fig : DeephavenFigure) l d e1 :
  DeephavenFigure.to_dict new_fig (exporter l) = inr (d, e1) →
  DeephavenFigureListener.to_dict_self new_fig l =
  Outcome (DeephavenFigureListener.set_exporter l e1) [] (inr d).
Proof.
  intros Hd. unfold DeephavenFigureListener.to_dict_self.
  rewrite bind_gets, Hd, bind_lift_inr, bind_modify. done.
Qed.

Lemma to_dict_self_fail (new_fig : DeephavenFigure) l e :
  DeephavenFigure.to_dict new_fig (exporter l) = inl e →
  DeephavenFigureListener.to_dict_self new_fig l = Outcome l [] (inl e).
Proof.
  intros Hd. unfold DeephavenFigureListener.to_dict_self.
  by rewrite bind_gets, Hd, bind_lift_inl.
Qed.

Lemma listener_on_update_unfold u r w l :
  DeephavenFigureListener.on_update u r w l = listener_on_update_outcome w l.
Proof.
  unfold listener_on_update_outcome, DeephavenFigureListener.on_update.
  rewrite bind_gets. unfold with_.
  rewrite bind_gets, bind_modify, bind_gets, bind_gets.
  unfold DeephavenFigureListener.call_func.
  rewrite bind_assoc, bind_emit.
  cbn [orig_func orig_args DeephavenFigureListener.set_partitions].
  destruct (invoke _ _ _) as [e|[new_fig x]].
  { by rewrite bind_lift_inl. }
  rewrite bind_lift_inr. cbn [fst].
  destruct (DeephavenFigure.to_dict new_fig (exporter l)) as [e|[d e1]] eqn:Hd.
  { by erewrite bind_fail by (apply to_dict_self_fail; exact Hd). }
  erewrite bind_run by (apply to_dict_self_ok; exact Hd).
  rewrite bind_gets.
  cbn [connection DeephavenFigureListener.set_exporter
       DeephavenFigureListener.set_partitions].
  destruct (connection l) as [c|].
  2:{ by rewrite bind_pure with (a := ()). }
  rewrite bind_assoc.
  destruct (DeephavenFigure.to_dict new_fig e1) as [e|[d2 e2]] eqn:Hd2.
  { by erewrite bind_fail by (apply to_dict_self_fail; exact Hd2). }
  erewrite bind_run by (apply to_dict_self_ok; exact Hd2).
  by rewrite bind_assoc, bind_gets, bind_emit.
Qed.

Lemma in_figure_gets {A} (g : DeephavenFigure → A) (h : heap) self f :
  h !! self = Some (OFigure f) →
  in_figure self (gets g) h = Outcome h [] (inr (g f)).
Proof. intros Hf. unfold in_figure. rewrite Hf. simpl. by rewrite insert_id. Qed.

Lemma in_figure_modify (g : DeephavenFigure → DeephavenFigure) (h : heap)
    self f :
  h !! self = Some (OFigure f) →
  in_figure self (modify g) h =
  Outcome (<[self := OFigure (g f)]> h) [] (inr ()).
Proof. intros Hf. unfold in_figure. by rewrite Hf. Qed.

Lemma in_listener_run {A} (m : M DeephavenFigureListener A) (h : heap) lst l :
  h !! lst = Some (OListener l) →
  in_listener lst m h =
  Outcome (<[lst := OListener (out_state (m l))]> h) (out_trace (m l))
    (out_val (m l)).
Proof. intros Hl. unfold in_listener. by rewrite Hl. Qed.

Lemma replace_attr_run (g : DeephavenFigure → DeephavenFigure) (h : heap)
    self attr f :
  h !! self = Some (OFigure f) →
  DeephavenFigureUpdates.replace_attr self attr g h =
  Outcome (<[self := OFigure (g f)]> h) [EvReplace self attr] (inr ()).
Proof.
  intros Hf. unfold DeephavenFigureUpdates.replace_attr.
  rewrite bind_emit. by rewrite (in_figure_modify _ _ _ _ Hf).
Qed.

Lemma figure_on_update_unfold u r w (h : heap) self lst f l :
  h !! self = Some (OFigure f) →
  listener f = Some lst →
  h !! lst = Some (OListener l) →
  DeephavenFigureUpdates.on_update self u r w h =
  figure_on_update_outcome w h self lst f l.
Proof.
  intros Hself Hlst Hl.
  assert (self ≠ lst) as Hne by (intros ->; congruence).
  unfold DeephavenFigureUpdates.on_update, figure_on_update_outcome.
  erewrite bind_pure by (by apply in_figure_gets). rewrite Hlst.
  erewrite bind_pure by (by apply in_figure_gets).
  unfold with_.
  pose proof (in_listener_run (DeephavenFigureListener.on_update u r w)
                h lst l Hl) as Hrun.
  rewrite listener_on_update_unfold in Hrun.
  destruct (out_val (listener_on_update_outcome w l)) as [e|new_fig].
  { by erewrite bind_fail by exact Hrun. }
  erewrite bind_run by exact Hrun.
  do 7 (erewrite bind_run
          by (apply replace_attr_run;
              first [ apply lookup_insert_eq
                    | rewrite lookup_insert_ne by done; exact Hself ])).
  erewrite replace_attr_run by apply lookup_insert_eq.
  cbn [out_val out_state out_trace app].
  rewrite !insert_insert_eq, <- app_assoc. reflexivity.
Qed.

Lemma figure_on_update_no_listener u r w (h : heap) self f :
  h !! self = Some (OFigure f) →
  listener f = None →
  DeephavenFigureUpdates.on_update self u r w h =
  Outcome h [] (inl (ValueError "Listener not initialized")).
Proof.
  intros Hself Hlst. unfold DeephavenFigureUpdates.on_update.
  erewrite bind_pure by (by apply in_figure_gets). by rewrite Hlst.
Qed.
End listener.

(** ** Construction failure *)

Section failure.
Context `{Host}.
Implicit Types (l : DeephavenFigureListener) (f : DeephavenFigure).
Implicit Types (h : heap).

(** What every outcome of the listener's [on_update] has in common. *)
Lemma listener_on_update_frame u r w l :
  let o := DeephavenFigureListener.on_update u r w l in
  deephaven_figure (out_state o) = deephaven_figure l ∧
  connection (out_state o) = connection l ∧
  Forall (λ ev, is_lock_event ev = false) (out_trace o) ∧
  (connection l = None → Forall (λ ev, is_push ev = false) (out_trace o)) ∧
  (∀ e, invoke (orig_func l) w (args_copy (orig_args l)) = inl e →
        out_val o = inl e ∧ Forall (λ ev, is_push ev = false) (out_trace o)).
Proof.
  cbv zeta. rewrite listener_on_update_unfold.
  unfold listener_on_update_outcome.
  destruct (invoke _ _ _) as [e|[new_fig x]].
  { split_and!; try done; [by repeat constructor..|].
    intros e' [= ->]. split; [done|]. by repeat constructor. }
  destruct (DeephavenFigure.to_dict new_fig (exporter l)) as [e|[d e1]].
  { split_and!; try done; by repeat constructor. }
  destruct (connection l) as [c|] eqn:Hc.
  - destruct (DeephavenFigure.to_dict new_fig e1) as [e|[d2 e2]];
      split_and!; try done; by repeat constructor.
  - split_and!; try done; by repeat constructor.
Qed.

(** C5.  If the construction function raises while a notification is being
    handled, the listener's [on_update] raises that exception and so does the
    figure's: neither catches it.  The figure object is left exactly as it
    was, so each of [fig], [call], [call_args], [trace_generator],
    [has_template], [has_color], [_data_mappings] and [has_subplots] keeps
    its value from before the notification, and nothing is pushed. *)
Theorem construction_failure_propagates u r w h self lst f l e :
  h !! self = Some (OFigure f) →
  listener f = Some lst →
  h !! lst = Some (OListener l) →
  invoke (orig_func l) w (args_copy (orig_args l)) = inl e →
  let o := DeephavenFigureUpdates.on_update self u r w h in
  out_val (DeephavenFigureListener.on_update u r w l) = inl e ∧
  out_val o = inl e ∧
  out_state o !! self = Some (OFigure f) ∧
  Forall (λ ev, is_push ev = false) (out_trace o).
Proof.
  intros Hself Hlst Hl Hinv o.
  assert (self ≠ lst) as Hne by (intros ->; congruence).
  destruct (listener_on_update_frame u r w l) as (_ & _ & _ & _ & Hfail).
  destruct (Hfail e Hinv) as [Hval Hpush].
  split; [done|]. subst o.
  rewrite (figure_on_update_unfold _ _ _ _ _ _ _ _ Hself Hlst Hl).
  unfold figure_on_update_outcome.
  rewrite <- (listener_on_update_unfold u r w l), Hval.
  cbn [out_val out_state out_trace].
  split; [done|]. split; [by rewrite lookup_insert_ne|].
  constructor; [done|]. apply Forall_app. split; [done|]. by constructor.
Qed.
End failure.

Lemma construction_failure_propagates_witness :
  let o := @DeephavenFigureUpdates.on_update Sample.libraries Sample.host
             0%nat Sample.update false 2%nat Sample.heap1 in
  @invoke Sample.libraries Sample.host Sample.line 2%nat
    (args_copy (orig_args Sample.new_listener)) = inl (Raised (plain 99)) ∧
  out_val o = inl (Raised (plain 99)) ∧
  out_state o !! 0%nat = Sample.heap1 !! 0%nat.
Proof.
  pose proof (@construction_failure_propagates Sample.libraries Sample.host
                Sample.update false 2%nat Sample.heap1 0%nat 1%nat _ _ (Raised (plain 99))
                sample_heap1_figure eq_refl sample_heap1_listener eq_refl)
    as (_ & Hval & Hfig & _).
  split; [reflexivity|].
  split; [exact Hval|]. etrans; [exact Hfig|]. symmetry.
  exact sample_heap1_figure.
Defined.

(** ** Uninitialized listener *)

Section initialization.
Context `{Host}.
Implicit Types (l : DeephavenFigureListener) (f : DeephavenFigure).
Implicit Types (h : heap).

Lemma listener_init_ok t fn (oargs : kwargs) ctx w d :
  oargs !! "args" = Some (PDict d) →
  DeephavenFigureListener.init t fn oargs ctx w =
  inr {| table := t;
         partitions := DeephavenFigureListener.partition_count t w;
         deephaven_figure := None;
         orig_func := fn;
         orig_args := <["args" := PDict (<["table" := PObj t]> d)]> oargs;
         connection := None;
         exporter := Exporter.init;
         exec_ctx := ctx |}.
Proof.
  intros Hargs. unfold DeephavenFigureListener.init,
    DeephavenFigureListener.set_args_table. by rewrite Hargs.
Qed.

Lemma initialize_listener_run h self f t fn oargs ctx w l :
  h !! self = Some (OFigure f) →
  DeephavenFigureListener.init t fn oargs ctx w = inr l →
  DeephavenFigureUpdates.initialize_listener self t fn oargs ctx w h =
  Outcome
    (<[self := OFigure (DeephavenFigureUpdates.set_listener f
                          (Some (fresh (dom h))))]>
       (<[fresh (dom h) := OListener l]> h))
    [] (inr self).
Proof.
  intros Hself Hinit.
  assert (self ≠ fresh (dom h)) as Hne.
  { intros Heq. apply (is_fresh (dom h)). rewrite <- Heq.
    apply elem_of_dom. by eexists. }
  unfold DeephavenFigureUpdates.initialize_listener.
  rewrite Hinit, bind_lift_inr.
  erewrite bind_run by (unfold alloc; reflexivity).
  erewrite bind_run
    by (apply in_figure_modify; rewrite lookup_insert_ne by done; exact Hself).
  done.
Qed.

(** C9.  [on_update] on a figure whose listener is not initialized raises
    [ValueError("Listener not initialized")] at once: before the lock is
    taken, before the construction function is called, and with the heap,
    hence every field of the figure, unchanged.  Once [initialize_listener]
    has attached a listener, the same call takes the lock, enters the
    execution context and calls the construction function with the stored
    arguments; it raises only what that function or the serialization of its
    result raises. *)
Theorem uninitialized_listener_fails_fast u r w h self f :
  h !! self = Some (OFigure f) →
  listener f = None →
  DeephavenFigureUpdates.on_update self u r w h =
    Outcome h [] (inl (ValueError "Listener not initialized")) ∧
  ∀ t fn (oargs : kwargs) ctx w0 d,
    oargs !! "args" = Some (PDict d) →
    let o1 := DeephavenFigureUpdates.initialize_listener self t fn oargs ctx
                w0 h in
    let o2 := DeephavenFigureUpdates.on_update self u r w (out_state o1) in
    let args := <["args" := PDict (<["table" := PObj t]> d)]> oargs in
    out_val o1 = inr self ∧
    (∃ tr, out_trace o2 =
           EvAcquire (fig_lock f) :: EvEnter ctx :: EvCall fn args :: tr) ∧
    out_val o2 =
      match invoke fn w args with
      | inl e => inl e
      | inr (new_fig, _) =>
          match DeephavenFigure.to_dict new_fig Exporter.init with
          | inl e => inl e
          | inr _ => inr ()
          end
      end.
Proof.
  intros Hself Hnone. split; [by eapply figure_on_update_no_listener|].
  intros t fn oargs ctx w0 d Hargs o1 o2 args.
  pose proof (listener_init_ok t fn oargs ctx w0 d Hargs) as Hinit.
  pose proof (initialize_listener_run h self f _ _ _ _ _ _ Hself Hinit) as Hrun.
  assert (self ≠ fresh (dom h)) as Hne.
  { intros Heq. apply (is_fresh (dom h)). rewrite <- Heq.
    apply elem_of_dom. by eexists. }
  subst o2 o1. rewrite Hrun. cbn [out_val out_state out_trace].
  split; [done|].
  erewrite figure_on_update_unfold;
    [| apply lookup_insert_eq | reflexivity
     | rewrite lookup_insert_ne by done; apply lookup_insert_eq ].
  unfold figure_on_update_outcome, listener_on_update_outcome.
  cbn [orig_func orig_args exec_ctx exporter connection
       DeephavenFigureUpdates.set_listener fig_lock].
  unfold args_copy. fold args.
  destruct (invoke fn w args) as [e|[new_fig x]].
  { split; [by eexists|done]. }
  destruct (DeephavenFigure.to_dict new_fig Exporter.init) as [e|[dd e1]].
  { split; [by eexists|done]. }
  split; [by eexists|done].
Qed.
End initialization.

Lemma uninitialized_listener_fails_fast_witness :
  Sample.heap0 !! 0%nat =
    Some (@OFigure Sample.libraries (Sample.chart Sample.trades)) ∧
  @DeephavenFigureUpdates.on_update Sample.libraries Sample.host 0%nat Sample.update
    false 0%nat Sample.heap0 =
  Outcome Sample.heap0 [] (inl (ValueError "Listener not initialized")) ∧
  out_val (@DeephavenFigureUpdates.on_update Sample.libraries Sample.host
             0%nat Sample.update false 0%nat Sample.heap1) = inr ().
Proof.
  destruct (@uninitialized_listener_fails_fast Sample.libraries Sample.host
              Sample.update false 0%nat Sample.heap0 0%nat
              (Sample.chart Sample.trades) eq_refl eq_refl)
    as [Hfail Hinit].
  split; [reflexivity|]. split; [exact Hfail|].
  destruct (Hinit (table_object Sample.trades) Sample.line Sample.args
              Sample.ctx 0%nat
              {[ "x" := PStr "Timestamp"; "y" := PStr "Price" ]} eq_refl)
    as (_ & _ & Hval).
  exact Hval.
Defined.

(** ** Where the new payload goes *)



Section replacement.
Context `{Host}.
Implicit Types (l : DeephavenFigureListener) (f : DeephavenFigure).
Implicit Types (h : heap).


End replacement.


(** ** The connection adapter *)

Section adapter.
Context `{Host}.
Implicit Types (l : DeephavenFigureListener) (f : DeephavenFigure).
Implicit Types (h : heap).

(** The adapter over a listener object: the listener gets the connection,
    and inbound messages go through [execute] to the client. *)
Lemma connection_over_listener h lst l client payload refs :
  h !! lst = Some (OListener l) →
  let o := DeephavenFigureConnection.init lst client h in
  let adapter := {| figure_listener := lst; client_connection := client |} in
  o = Outcome
        (<[lst := OListener (DeephavenFigureListener.set_connection l
                               (Some client))]> h)
        [] (inr adapter) ∧
  DeephavenFigureConnection.on_data adapter payload refs (out_state o) =
    Outcome (out_state o) [EvOnData client payload refs] (inr ()).
Proof.
  intros Hl o adapter. subst o.
  unfold DeephavenFigureConnection.init.
  erewrite bind_run.
  2:{ unfold DeephavenFigureConnection.set_connection. rewrite Hl.
      rewrite (in_listener_run _ _ _ _ Hl). reflexivity. }
  cbn [out_val out_state out_trace ret app]. split; [done|].
  unfold DeephavenFigureConnection.on_data.
  erewrite bind_run.
  2:{ unfold DeephavenFigureConnection.call_execute.
      rewrite lookup_insert_eq.
      erewrite in_listener_run by apply lookup_insert_eq.
      cbn [DeephavenFigureListener.execute ret out_val out_state out_trace].
      rewrite insert_insert_eq. reflexivity. }
  done.
Qed.

(** C4, at the input the code gets.  [create_client_connection] builds the
    adapter over the object the plugin framework hands it, and [is_type]
    makes that a [DeephavenFigure].  The constructor then adds a [connection]
    attribute to the figure; the figure's listener is untouched, so with its
    [connection] still [None] an update pushes nothing; and [on_data] raises
    [AttributeError], because a figure has no [execute], so nothing reaches
    the client. *)
Theorem connection_over_figure h obj f client :
  h !! obj = Some (OFigure f) →
  let o := DeephavenFigureListenerType.create_client_connection obj client h in
  let adapter := {| figure_listener := obj; client_connection := client |} in
  DeephavenFigureListenerType.is_type h obj = true ∧
  o = Outcome
        (<[obj := OFigure (DeephavenFigureConnection.set_attr f "connection"
                             (PObj client))]> h)
        [] (inr adapter) ∧
  (∀ lst l, h !! lst = Some (OListener l) →
            out_state o !! lst = Some (OListener l)) ∧
  (∀ payload refs,
     DeephavenFigureConnection.on_data adapter payload refs (out_state o) =
     Outcome (out_state o) [] (inl (AttributeError "DeephavenFigure" "execute"))) ∧
  (∀ lst l u r w,
     listener f = Some lst → h !! lst = Some (OListener l) →
     connection l = None →
     Forall (λ ev, is_push ev = false)
       (out_trace (DeephavenFigureUpdates.on_update obj u r w (out_state o)))).
Proof.
  intros Hobj o adapter.
  assert (o = Outcome
        (<[obj := OFigure (DeephavenFigureConnection.set_attr f "connection"
                             (PObj client))]> h)
        [] (inr adapter)) as Ho.
  { subst o. unfold DeephavenFigureListenerType.create_client_connection,
      DeephavenFigureConnection.init.
    erewrite bind_run.
    2:{ unfold DeephavenFigureConnection.set_connection. rewrite Hobj.
        by apply in_figure_modify. }
    done. }
  split; [unfold DeephavenFigureListenerType.is_type; by rewrite Hobj|].
  split; [done|]. rewrite Ho. cbn [out_state].
  assert (∀ lst l, h !! lst = Some (OListener l) → obj ≠ lst) as Hne.
  { intros lst l Hl ->. congruence. }
  split; [|split].
  - intros lst l Hl. rewrite lookup_insert_ne by by eapply Hne. done.
  - intros payload refs. unfold DeephavenFigureConnection.on_data.
    erewrite bind_fail; [done|].
    unfold DeephavenFigureConnection.call_execute. cbn [figure_listener].
    by rewrite lookup_insert_eq.
  - intros lst l u r w Hlst Hl Hc.
    erewrite figure_on_update_unfold;
      [| apply lookup_insert_eq | exact Hlst
       | rewrite lookup_insert_ne by (by eapply Hne); exact Hl ].
    unfold figure_on_update_outcome.
    destruct (listener_on_update_frame u r w l) as (_ & _ & _ & Hpush & _).
    rewrite listener_on_update_unfold in Hpush. specialize (Hpush Hc).
    destruct (out_val (listener_on_update_outcome w l));
      cbn [out_trace]; (constructor; [done|]); apply Forall_app;
      (split; [done|]); by repeat constructor.
Qed.
End adapter.

Lemma connection_over_figure_witness :
  let o := @DeephavenFigureListenerType.create_client_connection
             Sample.libraries 0%nat Sample.client Sample.heap1 in
  Sample.heap1 !! 0%nat =
    Some (@OFigure Sample.libraries
            (@DeephavenFigureUpdates.set_listener Sample.libraries
               (Sample.chart Sample.trades) (Some 1%nat))) ∧
  out_state o !! 1%nat = Some (@OListener Sample.libraries Sample.new_listener) ∧
  @DeephavenFigureConnection.on_data Sample.libraries
    {| figure_listener := 0%nat; client_connection := Sample.client |}
    (JStr "ping") [] (out_state o) =
  Outcome (out_state o) [] (inl (AttributeError "DeephavenFigure" "execute")).
Proof.
  pose proof (@connection_over_figure Sample.libraries Sample.host
                Sample.heap1 0%nat _ Sample.client sample_heap1_figure)
    as (_ & _ & Hlst & Hdata & _).
  split; [exact sample_heap1_figure|]. split.
  - exact (Hlst 1%nat _ sample_heap1_listener).
  - exact (Hdata (JStr "ping") []).
Defined.

(** ** Serialization and the push message *)

Section serialization.
Context `{Host}.
Implicit Types (l : DeephavenFigureListener) (f : DeephavenFigure).
Implicit Types (e : Exporter).

(** A successful update with a connection attached. *)
Lemma listener_on_update_push u r w l new_fig x c pf :
  invoke (orig_func l) w (args_copy (orig_args l)) = inr (new_fig, x) →
  fig new_fig = Some pf →
  connection l = Some c →
  let links := DeephavenFigure.get_json_links new_fig (exporter l) in
  let l1 := DeephavenFigureListener.set_partitions l
              (DeephavenFigureListener.partition_count (table l) w) in
  DeephavenFigureListener.on_update u r w l =
  Outcome
    (DeephavenFigureListener.set_exporter
       (DeephavenFigureListener.set_exporter l1 links.2) links.2)
    [EvEnter (exec_ctx l);
     EvCall (orig_func l) (args_copy (orig_args l));
     EvOnData c
       (encode (dumps (DeephavenFigureListener.new_figure_message
          (DeephavenFigure.payload_dict (loads (Figure_to_json pf)) links.1
             (has_template new_fig) (has_color new_fig)))))
       (Exporter.reference_list links.2);
     EvExit (exec_ctx l)]
    (inr new_fig).
Proof.
  intros Hinv Hfig Hc links l1.
  rewrite listener_on_update_unfold. unfold listener_on_update_outcome.
  rewrite Hinv, Hc.
  pose proof (to_dict_payload new_fig (exporter l) pf Hfig) as Hd.
  rewrite Hd. by rewrite (to_dict_again _ _ _ _ Hd).
Qed.

(** C6.  [to_json] of a payload with a plotly figure yields the JSON text of
    a document with exactly two entries: ["plotly"], the figure's own JSON
    as [json.loads] reads it, and ["deephaven"], holding ["mappings"] (the
    links of all data mappings, mapping after mapping, one per
    column/property pair), ["is_user_set_template"] and
    ["is_user_set_color"].  The one message an update hands to the
    connection is the encoded JSON text of [{"type": "NEW_FIGURE", "figure":
    document}], together with the exporter's reference list. *)
Theorem serialization_shape f e pf :
  fig f = Some pf →
  let links := DeephavenFigure.get_json_links f e in
  let document :=
    JObj [("plotly", loads (Figure_to_json pf));
          ("deephaven",
           JObj [("mappings", JArr links.1);
                 ("is_user_set_template", JBool (has_template f));
                 ("is_user_set_color", JBool (has_color f))])] in
  DeephavenFigure.to_json f e = inr (dumps document, links.2) ∧
  loads (dumps document) = document ∧
  links.1 =
    (_data_mappings f ≫= λ m,
       match Exporter.getitem (references links.2)
               (table_key (source_table m)) with
       | Some r => (λ cp, DataMapping.link m cp r) <$> column_to_property m
       | None => []
       end) ∧
  ∀ u r w l x c,
    exporter l = e →
    invoke (orig_func l) w (args_copy (orig_args l)) = inr (f, x) →
    connection l = Some c →
    filter is_push (out_trace (DeephavenFigureListener.on_update u r w l)) =
    [EvOnData c
       (encode (dumps (JObj [("type", JStr "NEW_FIGURE");
                             ("figure", document)])))
       (Exporter.reference_list links.2)].
Proof.
  intros Hfig links document.
  split.
  { unfold DeephavenFigure.to_json. rewrite Hfig. subst document links.
    by destruct (DeephavenFigure.get_json_links f e). }
  split; [apply loads_dumps|]. split.
  { subst links. unfold DeephavenFigure.get_json_links.
    by destruct (json_links_flat (_data_mappings f) e _
                   (Exporter_extends_refl _)) as (_ & Hflat & _). }
  intros u r w l x c <- Hinv Hc.
  rewrite (listener_on_update_push u r w l f x c pf Hinv Hfig Hc).
  done.
Qed.
End serialization.

Lemma serialization_shape_witness :
  fig (Sample.chart Sample.quotes) =
    Some (JObj [("data", JArr []); ("layout", JObj [])]) ∧
  filter is_push
    (out_trace (@DeephavenFigureListener.on_update Sample.libraries Sample.host
                  Sample.update false 1%nat Sample.listener0)) =
  [@EvOnData Sample.libraries Sample.client
     (JObj [("type", JStr "NEW_FIGURE");
            ("figure",
             JObj [("plotly", JObj [("data", JArr []); ("layout", JObj [])]);
                   ("deephaven",
                    JObj [("mappings",
                           JArr [JObj [("table", JNum 0);
                                       ("data_columns",
                                        JObj [("Timestamp", JStr "x")]);
                                       ("offset", JNum 0)];
                                 JObj [("table", JNum 0);
                                       ("data_columns",
                                        JObj [("Price", JStr "y")]);
                                       ("offset", JNum 0)]]);
                          ("is_user_set_template", JBool false);
                          ("is_user_set_color", JBool false)])])])
     [table_object Sample.quotes]].
Proof.
  split; [reflexivity|].
  pose proof (@serialization_shape Sample.libraries Sample.host
                (Sample.chart Sample.quotes) Exporter.init _ eq_refl)
    as (_ & _ & _ & Hpush).
  exact (Hpush Sample.update false 1%nat Sample.listener0 PNone Sample.client
           eq_refl eq_refl eq_refl).
Defined.

(** ** What a push carries *)

Example sample_second_references :
  Exporter.reference_list
    (@DeephavenFigure.get_json_links Sample.libraries
       (Sample.chart Sample.quotes) (exporter Sample.listener1)).2 =
  [table_object Sample.trades; table_object Sample.quotes].
Proof. vm_compute. reflexivity. Qed.

(** C1, as stated, fails: the sample listener's first notification draws
    from [trades], its second from [quotes] only, and the reference list
    pushed with the second still starts with [trades]. *)
Lemma second_push_carries_first_table :
  ¬ @push_has_only_own_references Sample.libraries Sample.host 1%nat
      Sample.listener1.
Proof.
  intros Hown.
  assert (table_object Sample.trades ∈ referenced_tables
            (_data_mappings (Sample.chart Sample.quotes))) as Hin.
  { eapply (Hown (Sample.chart Sample.quotes) PNone Sample.client);
      [reflexivity | |].
    - erewrite listener_on_update_push by reflexivity.
      cbn [out_trace].
      apply list_elem_of_further, list_elem_of_further, list_elem_of_here.
    - rewrite sample_second_references. apply list_elem_of_here. }
  apply list_elem_of_In in Hin. vm_compute in Hin.
  destruct Hin as [Hin|[Hin|[]]]; discriminate Hin.
Qed.

Section pushes.
Context `{Host}.
Implicit Types (l : DeephavenFigureListener) (f : DeephavenFigure).

Lemma referenced_tables_hashable ms t :
  t ∈ referenced_tables ms → is_Some (dict_key t).
Proof.
  unfold referenced_tables.
  intros (m & (cp & -> & _)%list_elem_of_fmap & _)%list_elem_of_bind.
  by eexists.
Qed.

(** C1, amended.  A listener uses the one exporter it created in
    [__init__] for every update.  The reference list pushed with
    ["NEW_FIGURE"] is that exporter's list after the update: what it held
    before the update comes first, unchanged; each of its members is one of
    those objects or a table referenced while this update's payload was
    serialized; and each of those objects and tables is in it, a table that
    is the same dict key as an object already listed being stood for by that
    object. *)
Theorem push_references_accumulate u r w l new_fig x c pf :
  invoke (orig_func l) w (args_copy (orig_args l)) = inr (new_fig, x) →
  fig new_fig = Some pf →
  connection l = Some c →
  let o := DeephavenFigureListener.on_update u r w l in
  ∃ payload refs,
    filter is_push (out_trace o) = [EvOnData c payload refs] ∧
    refs = Exporter.reference_list (exporter (out_state o)) ∧
    Exporter.reference_list (exporter l) `prefix_of` refs ∧
    (∀ t, t ∈ refs →
          t ∈ Exporter.reference_list (exporter l) ∨
          t ∈ referenced_tables (_data_mappings new_fig)) ∧
    (∀ t, t ∈ Exporter.reference_list (exporter l) ∨
          t ∈ referenced_tables (_data_mappings new_fig) →
          ∃ t', t' ∈ refs ∧ dict_key t' = dict_key t).
Proof.
  intros Hinv Hfig Hc o. subst o.
  rewrite (listener_on_update_push u r w l new_fig x c pf Hinv Hfig Hc).
  cbn [out_trace out_state exporter DeephavenFigureListener.set_exporter].
  eexists _, _. split; [reflexivity|]. split; [done|].
  unfold DeephavenFigure.get_json_links. rewrite json_links_exporter.
  destruct (reference_all_keys (referenced_tables (_data_mappings new_fig))
              (exporter l)) as (Hpre & Hel & Hk).
  split; [done|]. split; [done|].
  intros t [Ht|Ht].
  - exists t. split; [|done]. destruct Hpre as [rest ->].
    apply elem_of_app. by left.
  - destruct (referenced_tables_hashable _ _ Ht) as [k Hkt].
    assert (Some k ∈ exported_keys
              (Exporter.reference_all (exporter l)
                 (referenced_tables (_data_mappings new_fig))).2) as Hin.
    { apply Hk. right. apply list_elem_of_fmap. by exists t. }
    apply list_elem_of_fmap in Hin as (t' & Hkt' & Hin).
    exists t'. split; [done|]. congruence.
Qed.
End pushes.

Lemma push_references_accumulate_witness :
  connection Sample.listener1 = Some Sample.client ∧
  ∃ payload,
    filter is_push
      (out_trace (@DeephavenFigureListener.on_update Sample.libraries
                    Sample.host Sample.update false 1%nat Sample.listener1)) =
    [@EvOnData Sample.libraries Sample.client payload
       [table_object Sample.trades; table_object Sample.quotes]].
Proof.
  split; [reflexivity|].
  destruct (@push_references_accumulate Sample.libraries Sample.host
              Sample.update false 1%nat Sample.listener1
              (Sample.chart Sample.quotes) PNone
              Sample.client _ eq_refl eq_refl eq_refl)
    as (payload & refs & Htrace & Hrefs & _).
  exists payload. rewrite Htrace, Hrefs. reflexivity.
Defined.

(** ** Flags and defaults *)

Lemma lookup_dict_truthy (d : kwargs) k v :
  d !! k = Some v → dict_truthy d = true.
Proof.
  intros Hk. unfold dict_truthy. destruct (size d) eqn:Hs; [|done].
  apply map_size_empty_inv in Hs. subst. by rewrite lookup_empty in Hk.
Qed.

Lemma has_arg_template call_args s :
  has_arg call_args (CheckStr s) = true ↔
  ∃ d v, call_args = Some d ∧ d !! s = Some v ∧ truthy v = true.
Proof.
  split.
  - destruct call_args as [d|]; simpl; [|done].
    destruct (dict_truthy d); [|done].
    destruct (d !! s) as [v|] eqn:Hs; [|done]. intros Hv. by exists d, v.
  - intros (d & v & -> & Hs & Hv). simpl.
    by rewrite (lookup_dict_truthy _ _ _ Hs), Hs.
Qed.

Lemma has_color_args_true (d : kwargs) :
  has_color_args d = true ↔
  ∃ v, (d !! "color_discrete_sequence_line" = Some v ∨
        d !! "color_discrete_sequence_marker" = Some v) ∧
       truthy v = true.
Proof.
  unfold has_color_args. simpl. split.
  - destruct (d !! "color_discrete_sequence_line") as [v1|] eqn:H1.
    + destruct (truthy v1) eqn:Hv1; [intros _; exists v1; auto|].
      destruct (d !! "color_discrete_sequence_marker") as [v2|] eqn:H2;
        [|done].
      destruct (truthy v2) eqn:Hv2; [|done]. intros _. exists v2. auto.
    + destruct (d !! "color_discrete_sequence_marker") as [v2|] eqn:H2;
        [|done].
      destruct (truthy v2) eqn:Hv2; [|done]. intros _. exists v2. auto.
  - intros (v & [Hl|Hm] & Hv).
    + by rewrite Hl, Hv.
    + rewrite Hm, Hv.
      destruct (d !! "color_discrete_sequence_line") as [v1|]; [|done].
      by destruct (truthy v1).
Qed.

Lemma has_arg_color call_args :
  has_arg call_args (CheckFn has_color_args) = true ↔
  ∃ d v, call_args = Some d ∧
         (d !! "color_discrete_sequence_line" = Some v ∨
          d !! "color_discrete_sequence_marker" = Some v) ∧
         truthy v = true.
Proof.
  split.
  - destruct call_args as [d|]; simpl; [|done].
    destruct (dict_truthy d); [|done].
    intros (v & Hk & Hv)%has_color_args_true. by exists d, v.
  - intros (d & v & -> & Hk & Hv). simpl.
    assert (dict_truthy d = true) as ->.
    { destruct Hk as [Hk|Hk]; by eapply lookup_dict_truthy. }
    apply has_color_args_true. by exists v.
Qed.

(** C7.  Passing [has_template=False] and leaving [has_template] out give
    the same [has_template], which is [has_arg(call_args, "template")]: true
    exactly when [call_args] holds a ["template"] entry with a truthy value.
    With [has_color] left out, [has_color] is true exactly when
    ["color_discrete_sequence_line"] or ["color_discrete_sequence_marker"] is
    in [call_args] with a truthy value. *)
Theorem flag_derivation `{Libraries} (figure : option Figure)
    (fn : option Callable) (args : option kwargs)
    (mappings : option (list DataMapping)) (color : option bool)
    (generator : option Generator) (subplots : option bool) (lock : Lock) :
  let explicit := DeephavenFigure.init figure fn args mappings (Some false)
                    color generator subplots lock in
  let omitted := DeephavenFigure.init figure fn args mappings None
                   color generator subplots lock in
  has_template explicit = has_template omitted ∧
  has_template omitted = has_arg args (CheckStr "template") ∧
  (has_template omitted = true ↔
   ∃ d v, args = Some d ∧ d !! "template" = Some v ∧ truthy v = true) ∧
  ∀ template : option bool,
    has_color
      (DeephavenFigure.init figure fn args mappings template None generator
         subplots lock) = true ↔
    ∃ d v, args = Some d ∧
           (d !! "color_discrete_sequence_line" = Some v ∨
            d !! "color_discrete_sequence_marker" = Some v) ∧
           truthy v = true.
Proof.
  intros explicit omitted.
  split; [done|]. split; [done|]. split.
  - apply has_arg_template.
  - intros ht. apply has_arg_color.
Qed.

(** C10.  [DeephavenFigure()] with every argument left out: [has_arg]
    answers [False] for absent and for empty arguments whatever the check,
    so [has_template] and [has_color] are [False]; the stored mappings are
    the empty list, and [copy_mappings] and [get_json_links] return empty
    lists, the latter leaving the exporter as it was. *)
Theorem default_figure `{Libraries} (lock : Lock) :
  let f := DeephavenFigure.init None None None None None None None None lock in
  (∀ check, has_arg None check = false ∧ has_arg (Some ∅) check = false) ∧
  has_template f = false ∧
  has_color f = false ∧
  _data_mappings f = [] ∧
  (∀ offset, DeephavenFigure.copy_mappings f offset = []) ∧
  (∀ exporter, DeephavenFigure.get_json_links f exporter = ([], exporter)).
Proof.
  intros f. split.
  - intros check. split; [done|]. unfold has_arg, dict_truthy.
    by rewrite map_size_empty.
  - by repeat split.
Qed.

(** C8.  [execute] returns the pair it was given, for every payload,
    reference list and listener; it raises nothing, causes no event and
    leaves the listener as it was. *)
Theorem execute_passthrough `{Libraries} (payload : pybytes)
    (references : list object) (l : DeephavenFigureListener) :
  DeephavenFigureListener.execute payload references l =
  Outcome l [] (inr (payload, references)).
Proof. unfold DeephavenFigureListener.execute, ret. reflexivity. Qed.

(** * Further properties of the code *)

(** ** More on the exporter *)

Lemma reference_all_length os : ∀ e,
  (length (Exporter.reference_list (Exporter.reference_all e os).2) ≤
   length (Exporter.reference_list e) + length os)%nat.
Proof.
  induction os as [|o os IH]; intros e; [simpl; lia|].
  rewrite reference_all_cons. destruct (dict_key o) as [k|].
  - pose proof (reference_keys e k o) as Hl. cbn [snd].
    specialize (IH (Exporter.reference_hashed e k o).2).
    rewrite Hl, length_app in IH. simpl length.
    case_decide; simpl in IH; lia.
  - cbn [snd]. specialize (IH e). simpl length. lia.
Qed.

(** X1.  Once [reference(o)] has returned on an exporter, every later
    [reference(o)] on it returns the same Reference and leaves the exporter
    as it finds it, whatever other objects were passed in between and
    whatever state the exporter started from.  A [reference(o)] that raised
    raises again, on any exporter. *)
Theorem reference_is_remembered (e : Exporter) (o : object)
    (os : list object) :
  (∀ r e1,
     Exporter.reference e o = inr (r, e1) →
     let later := (Exporter.reference_all e1 os).2 in
     Exporter.reference later o = inr (r, later)) ∧
  (∀ err,
     Exporter.reference e o = inl err →
     ∀ e', Exporter.reference e' o = inl err).
Proof.
  unfold Exporter.reference. destruct (dict_key o) as [k|] eqn:Ho.
  - split; [|done]. intros r e1 [= Hr]. cbv zeta. f_equal.
    apply reference_known. apply (reference_all_extends os e1).
    destruct (reference_extends e k o Ho) as [_ Hg]. by rewrite Hr in Hg.
  - split; [done|]. by intros err [= <-] e'.
Qed.

(** X2.  [reference] only ever appends to [reference_list]: after any run of
    calls the old list is a prefix of the new one; the new one holds nothing
    but old objects and objects passed; every old object is in it, and so is
    every hashable object passed, or else an object that is the same dict
    key; and it has grown by at most one entry per call. *)
Theorem reference_list_only_grows (e : Exporter) (os : list object) :
  let e' := (Exporter.reference_all e os).2 in
  Exporter.reference_list e `prefix_of` Exporter.reference_list e' ∧
  (∀ x, x ∈ Exporter.reference_list e' →
        x ∈ Exporter.reference_list e ∨ x ∈ os) ∧
  (∀ x, x ∈ Exporter.reference_list e → x ∈ Exporter.reference_list e') ∧
  (∀ x, x ∈ os → is_Some (dict_key x) →
        ∃ y, y ∈ Exporter.reference_list e' ∧ dict_key y = dict_key x) ∧
  (length (Exporter.reference_list e') ≤
   length (Exporter.reference_list e) + length os)%nat.
Proof.
  intros e'. destruct (reference_all_keys os e) as (Hpre & Hel & Hk).
  split; [done|]. split; [done|]. split; [|split].
  - intros x Hx. destruct Hpre as [rest Hrest]. fold e' in Hrest.
    rewrite Hrest. apply elem_of_app. by left.
  - intros x Hx [k Hkx].
    assert (Some k ∈ exported_keys e') as Hin.
    { apply Hk. right. apply list_elem_of_fmap. by exists x. }
    apply list_elem_of_fmap in Hin as (y & Hky & Hin).
    exists y. split; [done|]. congruence.
  - apply reference_all_length.
Qed.

(** X3.  In an exporter whose entries are hashable objects, no two of them
    the same dict key, each stored with its own position as index, any run
    of [reference] calls keeps it that way.  A call on an object that is not
    hashable raises [TypeError]; every other call returns a Reference to an
    object that is the same dict key as the one asked for, with the position
    of that object in the final [reference_list] as index. *)
Theorem reference_index_is_position (e : Exporter) (os : list object) :
  Exporter_wf e →
  let rs := (Exporter.reference_all e os).1 in
  let e' := (Exporter.reference_all e os).2 in
  Exporter_wf e' ∧
  length rs = length os ∧
  ∀ i o, os !! i = Some o →
    match dict_key o with
    | None => rs !! i = Some (inl (TypeError "unhashable type"))
    | Some k =>
        ∃ r, rs !! i = Some (inr r) ∧
             dict_key (obj r) = Some k ∧
             Exporter.reference_list e' !! index r = Some (obj r) ∧
             (index r < length (Exporter.reference_list e'))%nat
    end.
Proof.
  intros Hwf rs e'.
  destruct (reference_all_spec os e Hwf) as (Hwf' & Hlen & Hcalls).
  split; [done|]. split; [done|].
  intros i o Ho. specialize (Hcalls i o Ho).
  destruct (dict_key o) as [k|]; [|done].
  destruct Hcalls as (r & Hr & Hkr & _ & Hlk & _).
  exists r. split; [done|]. split; [done|]. split; [done|].
  by eapply lookup_lt_Some.
Qed.

Lemma reference_index_is_position_witness :
  let e := {| references := [(plain 7, {| index := 0; obj := plain 7 |})] |} in
  let os := [plain 9; {| identity := 70; dict_key := Some 7%nat |};
             {| identity := 71; dict_key := None |}] in
  Exporter_wf e ∧
  Exporter_wf (Exporter.reference_all e os).2 ∧
  (∃ r, (Exporter.reference_all e os).1 !! 1%nat = Some (inr r) ∧
        dict_key (obj r) = Some 7%nat ∧
        Exporter.reference_list (Exporter.reference_all e os).2 !! index r =
          Some (obj r)) ∧
  (Exporter.reference_all e os).1 !! 2%nat =
    Some (inl (TypeError "unhashable type")).
Proof.
  intros e os.
  assert (Exporter_wf e) as Hwf.
  { split.
    - apply NoDup_singleton.
    - intros [|i] o r Hi; [|done]. injection Hi as <- <-. by eauto. }
  split; [exact Hwf|].
  destruct (reference_index_is_position e os Hwf) as (Hwf' & _ & Hcalls).
  split; [exact Hwf'|]. split.
  - destruct (Hcalls 1%nat _ eq_refl) as (r & Hr & Hk & Hl & _).
    exists r. by split.
  - exact (Hcalls 2%nat _ eq_refl).
Defined.

(** ** More on the listener *)

Section listener_more.
Context `{Host}.
Implicit Types (l : DeephavenFigureListener) (f : DeephavenFigure).
Implicit Types (h : heap) (e : Exporter).

(** X4.  [DeephavenFigureListener.__init__] needs an ["args"] entry in
    [orig_args]: without one it raises [KeyError].  With a dict there, the
    listener it builds is bound to the table, has no connection, no stored
    figure and an empty exporter, and its stored arguments are the ones
    given except that ["args"]["table"] is now the table, whatever it was
    before. *)
Theorem listener_init_binds_table (t : object) (fn : Callable)
    (oargs : kwargs) (ctx : ExecutionContext) (w : World) :
  (oargs !! "args" = None →
   DeephavenFigureListener.init t fn oargs ctx w = inl (KeyError "args")) ∧
  (∀ d, oargs !! "args" = Some (PDict d) →
     ∃ l d',
       DeephavenFigureListener.init t fn oargs ctx w = inr l ∧
       table l = t ∧ orig_func l = fn ∧ exec_ctx l = ctx ∧
       connection l = None ∧ deephaven_figure l = None ∧
       Exporter.reference_list (exporter l) = [] ∧
       partitions l = DeephavenFigureListener.partition_count t w ∧
       orig_args l !! "args" = Some (PDict d') ∧
       d' !! "table" = Some (PObj t) ∧
       (∀ k, k ≠ "table" → d' !! k = d !! k) ∧
       (∀ k, k ≠ "args" → orig_args l !! k = oargs !! k)).
Proof.
  split.
  - intros Hnone. unfold DeephavenFigureListener.init,
      DeephavenFigureListener.set_args_table. by rewrite Hnone.
  - intros d Hd. rewrite (listener_init_ok t fn oargs ctx w d Hd).
    eexists _, (<["table" := PObj t]> d). split; [reflexivity|].
    cbn [table orig_func exec_ctx connection deephaven_figure exporter
         partitions orig_args].
    split_and!; try done; try (by rewrite lookup_insert_eq).
    all: intros k Hk; by rewrite lookup_insert_ne.
Qed.


(** X5.  [partition_count] is [-1] exactly for a table that is not
    partitioned, and the number of constituent tables otherwise.  Every
    notification, whether it ends in a new payload or in an exception,
    leaves [partitions] equal to the count at that moment and leaves the
    listener's table, construction function, stored arguments, execution
    context and connection as they were. *)
Theorem partitions_follow_notifications (u : object) (r : bool) (w : World)
    l :
  let o := DeephavenFigureListener.on_update u r w l in
  (DeephavenFigureListener.partition_count (table l) w = -1 ↔
   isinstance_PartitionedTable (table l) = false) ∧
  (isinstance_PartitionedTable (table l) = true →
   DeephavenFigureListener.partition_count (table l) w =
   Z.of_nat (length (constituent_tables w (table l)))) ∧
  partitions (out_state o) =
    DeephavenFigureListener.partition_count (table l) w ∧
  table (out_state o) = table l ∧
  orig_func (out_state o) = orig_func l ∧
  orig_args (out_state o) = orig_args l ∧
  exec_ctx (out_state o) = exec_ctx l ∧
  connection (out_state o) = connection l.
Proof.
  intros o. split; [|split].
  - unfold DeephavenFigureListener.partition_count.
    destruct (isinstance_PartitionedTable (table l)); [|done].
    split; [lia|done].
  - unfold DeephavenFigureListener.partition_count. by intros ->.
  - subst o. rewrite listener_on_update_unfold.
    unfold listener_on_update_outcome.
    destruct (invoke _ _ _) as [e|[new_fig x]]; [done|].
    destruct (DeephavenFigure.to_dict new_fig (exporter l)) as [e|[d e1]];
      [done|].
    destruct (connection l) as [c|] eqn:Hc; [|done].
    by destruct (DeephavenFigure.to_dict new_fig e1) as [e|[d2 e2]].
Qed.

Lemma to_dict_no_fig f e :
  fig f = None →
  DeephavenFigure.to_dict f e = inl (AttributeError "NoneType" "to_json").
Proof.
  intros Hfig. unfold DeephavenFigure.to_dict, DeephavenFigure.to_json.
  by rewrite Hfig.
Qed.

(** X6.  When the construction function returns a payload that has no
    plotly figure, the notification raises [AttributeError], with or
    without a connection: the payload is serialized before the connection
    is looked at.  Nothing is pushed, the exporter is as it was, and the
    figure that owns the listener keeps all its fields. *)
Theorem figureless_payload_raises u r w h self lst f l new_fig x :
  h !! self = Some (OFigure f) →
  listener f = Some lst →
  h !! lst = Some (OListener l) →
  invoke (orig_func l) w (args_copy (orig_args l)) = inr (new_fig, x) →
  fig new_fig = None →
  let ol := DeephavenFigureListener.on_update u r w l in
  let o := DeephavenFigureUpdates.on_update self u r w h in
  out_val ol = inl (AttributeError "NoneType" "to_json") ∧
  out_trace ol =
    [EvEnter (exec_ctx l);
     EvCall (orig_func l) (args_copy (orig_args l));
     EvExit (exec_ctx l)] ∧
  exporter (out_state ol) = exporter l ∧
  out_val o = inl (AttributeError "NoneType" "to_json") ∧
  out_state o !! self = Some (OFigure f).
Proof.
  intros Hself Hlst Hl Hinv Hfig ol o.
  assert (self ≠ lst) as Hne by (intros ->; congruence).
  assert (ol = Outcome
            (DeephavenFigureListener.set_partitions l
               (DeephavenFigureListener.partition_count (table l) w))
            [EvEnter (exec_ctx l);
             EvCall (orig_func l) (args_copy (orig_args l));
             EvExit (exec_ctx l)]
            (inl (AttributeError "NoneType" "to_json"))) as Hol.
  { subst ol. rewrite listener_on_update_unfold.
    unfold listener_on_update_outcome.
    by rewrite Hinv, (to_dict_no_fig new_fig (exporter l) Hfig). }
  rewrite Hol. cbn [out_val out_trace out_state exporter
                    DeephavenFigureListener.set_partitions].
  split; [done|]. split; [done|]. split; [done|]. subst o.
  rewrite (figure_on_update_unfold _ _ _ _ _ _ _ _ Hself Hlst Hl).
  unfold figure_on_update_outcome.
  rewrite <- (listener_on_update_unfold u r w l). fold ol. rewrite Hol.
  cbn [out_val out_state]. split; [done|]. by rewrite lookup_insert_ne.
Qed.

(** X7.  With no connection attached a successful notification is silent:
    the listener enters the execution context, calls the construction
    function, leaves the context and returns the new payload, and hands
    nothing to any message stream.  The payload is serialized all the
    same, so the exporter is left as [get_json_links] leaves it. *)
Theorem update_without_connection u r w l new_fig x pf :
  invoke (orig_func l) w (args_copy (orig_args l)) = inr (new_fig, x) →
  fig new_fig = Some pf →
  connection l = None →
  let o := DeephavenFigureListener.on_update u r w l in
  out_val o = inr new_fig ∧
  out_trace o =
    [EvEnter (exec_ctx l);
     EvCall (orig_func l) (args_copy (orig_args l));
     EvExit (exec_ctx l)] ∧
  exporter (out_state o) =
    (DeephavenFigure.get_json_links new_fig (exporter l)).2.
Proof.
  intros Hinv Hfig Hc o. subst o. rewrite listener_on_update_unfold.
  unfold listener_on_update_outcome.
  by rewrite Hinv, (to_dict_payload new_fig (exporter l) pf Hfig), Hc.
Qed.
End listener_more.

(** ** More on the figure *)

Section figure_more.
Context `{Host}.
Implicit Types (l : DeephavenFigureListener) (f : DeephavenFigure).
Implicit Types (h : heap).



(** X9.  If [orig_args] has no ["args"] entry, [initialize_listener] raises
    [KeyError] before anything is stored: the heap is unchanged, the
    figure still has no listener, and a notification on it still raises
    [ValueError]. *)
Theorem initialize_listener_needs_args u r w h self f t fn (oargs : kwargs)
    ctx w0 :
  h !! self = Some (OFigure f) →
  listener f = None →
  oargs !! "args" = None →
  let o := DeephavenFigureUpdates.initialize_listener self t fn oargs ctx w0
             h in
  o = Outcome h [] (inl (KeyError "args")) ∧
  DeephavenFigureUpdates.on_update self u r w (out_state o) =
    Outcome h [] (inl (ValueError "Listener not initialized")).
Proof.
  intros Hself Hnone Hargs o.
  assert (o = Outcome h [] (inl (KeyError "args"))) as ->.
  { subst o. unfold DeephavenFigureUpdates.initialize_listener,
      DeephavenFigureListener.init, DeephavenFigureListener.set_args_table.
    by rewrite Hargs, bind_lift_inl. }
  split; [done|]. by eapply figure_on_update_no_listener.
Qed.

(** X10.  [initialize_listener] always makes a new listener object.  Called
    on a figure that already has a listener, it points the figure at a
    listener at a location that was free, bound to the table given, with no
    connection and an empty exporter.  Whoever was connected to the old
    listener, the next notification on the figure pushes nothing. *)
Theorem initialize_listener_is_fresh u r w h self f t fn (oargs : kwargs)
    ctx w0 d :
  h !! self = Some (OFigure f) →
  oargs !! "args" = Some (PDict d) →
  let o := DeephavenFigureUpdates.initialize_listener self t fn oargs ctx w0
             h in
  (∃ lst l,
     out_val o = inr self ∧ out_trace o = [] ∧
     h !! lst = None ∧
     out_state o !! self =
       Some (OFigure (DeephavenFigureUpdates.set_listener f (Some lst))) ∧
     out_state o !! lst = Some (OListener l) ∧
     table l = t ∧ connection l = None ∧
     Exporter.reference_list (exporter l) = []) ∧
  Forall (λ ev, is_push ev = false)
    (out_trace (DeephavenFigureUpdates.on_update self u r w (out_state o))).
Proof.
  intros Hself Hargs o.
  pose proof (listener_init_ok t fn oargs ctx w0 d Hargs) as Hinit.
  pose proof (initialize_listener_run h self f _ _ _ _ _ _ Hself Hinit)
    as Hrun.
  assert (h !! fresh (dom h) = None) as Hfresh.
  { apply not_elem_of_dom, is_fresh. }
  assert (self ≠ fresh (dom h)) as Hne by (intros Heq; congruence).
  subst o. rewrite Hrun. cbn [out_val out_trace out_state]. split.
  - eexists (fresh (dom h)), _.
    split; [done|]. split; [done|]. split; [done|].
    split; [by rewrite lookup_insert_eq|].
    split; [rewrite lookup_insert_ne by done; by rewrite lookup_insert_eq|].
    done.
  - erewrite figure_on_update_unfold;
      [| apply lookup_insert_eq | reflexivity
       | rewrite lookup_insert_ne by done; apply lookup_insert_eq ].
    unfold figure_on_update_outcome.
    match goal with
    | |- context [listener_on_update_outcome w ?l] =>
        destruct (listener_on_update_frame u r w l) as (_ & _ & _ & Hpush & _)
    end.
    rewrite listener_on_update_unfold in Hpush. specialize (Hpush eq_refl).
    match goal with
    | |- context [out_val ?o] => destruct (out_val o)
    end; cbn [out_trace]; (constructor; [done|]); apply Forall_app;
      (split; [done|]); by repeat constructor.
Qed.
End figure_more.

(** ** More on the connection adapter *)

Section adapter_more.
Context `{Host}.
Implicit Types (l : DeephavenFigureListener) (f : DeephavenFigure).
Implicit Types (h : heap).

Lemma connection_init_listener h lst l client :
  h !! lst = Some (OListener l) →
  DeephavenFigureConnection.init lst client h =
  Outcome
    (<[lst := OListener (DeephavenFigureListener.set_connection l
                           (Some client))]> h)
    [] (inr {| figure_listener := lst; client_connection := client |}).
Proof.
  intros Hl. unfold DeephavenFigureConnection.init.
  erewrite bind_run.
  2:{ unfold DeephavenFigureConnection.set_connection. rewrite Hl.
      rewrite (in_listener_run _ _ _ _ Hl). reflexivity. }
  done.
Qed.

(** The one push of a notification on a figure whose listener has a
    connection. *)
Lemma figure_on_update_push u r w h self lst f l new_fig x c pf :
  h !! self = Some (OFigure f) →
  listener f = Some lst →
  h !! lst = Some (OListener l) →
  invoke (orig_func l) w (args_copy (orig_args l)) = inr (new_fig, x) →
  fig new_fig = Some pf →
  connection l = Some c →
  let links := DeephavenFigure.get_json_links new_fig (exporter l) in
  let o := DeephavenFigureUpdates.on_update self u r w h in
  out_val o = inr () ∧
  filter is_push (out_trace o) =
    [EvOnData c
       (encode (dumps (DeephavenFigureListener.new_figure_message
          (DeephavenFigure.payload_dict (loads (Figure_to_json pf)) links.1
             (has_template new_fig) (has_color new_fig)))))
       (Exporter.reference_list links.2)].
Proof.
  intros Hself Hlst Hl Hinv Hfig Hc links o. subst o.
  rewrite (figure_on_update_unfold _ _ _ _ _ _ _ _ Hself Hlst Hl).
  unfold figure_on_update_outcome.
  rewrite <- (listener_on_update_unfold u r w l).
  rewrite (listener_on_update_push u r w l new_fig x c pf Hinv Hfig Hc).
  done.
Qed.


(** X12.  The last adapter built over a listener is the one that counts:
    building one for a first client and then one for a second leaves the
    heap exactly as building the second alone does, so nothing is ever
    pushed to the first client again. *)
Theorem last_adapter_wins h lst l client1 client2 :
  h !! lst = Some (OListener l) →
  let o1 := DeephavenFigureConnection.init lst client1 h in
  let o2 := DeephavenFigureConnection.init lst client2 (out_state o1) in
  out_state o2 = out_state (DeephavenFigureConnection.init lst client2 h) ∧
  out_state o2 !! lst =
    Some (OListener (DeephavenFigureListener.set_connection l
                       (Some client2))).
Proof.
  intros Hl o1 o2. subst o2 o1.
  rewrite (connection_init_listener h lst l client1 Hl). cbn [out_state].
  erewrite connection_init_listener by apply lookup_insert_eq.
  rewrite (connection_init_listener h lst l client2 Hl). cbn [out_state].
  rewrite insert_insert_eq. split; [done|]. by rewrite lookup_insert_eq.
Qed.

(** X13.  [on_close] releases nothing: it leaves the heap as it is, so the
    listener still holds the connection, and a notification that comes
    after the adapter was closed is still pushed to the client. *)
Theorem on_close_keeps_pushing u r w h self lst f l new_fig x client pf :
  h !! self = Some (OFigure f) →
  listener f = Some lst →
  h !! lst = Some (OListener l) →
  invoke (orig_func l) w (args_copy (orig_args l)) = inr (new_fig, x) →
  fig new_fig = Some pf →
  let o1 := DeephavenFigureConnection.init lst client h in
  let adapter := {| figure_listener := lst; client_connection := client |} in
  let o2 := DeephavenFigureConnection.on_close adapter (out_state o1) in
  let o3 := DeephavenFigureUpdates.on_update self u r w (out_state o2) in
  out_val o1 = inr adapter ∧
  o2 = Outcome (out_state o1) [] (inr ()) ∧
  ∃ payload refs,
    filter is_push (out_trace o3) = [EvOnData client payload refs].
Proof.
  intros Hself Hlst Hl Hinv Hfig o1 adapter o2 o3.
  assert (self ≠ lst) as Hne by (intros ->; congruence).
  subst o3 o2 o1. rewrite (connection_init_listener h lst l client Hl).
  cbn [out_state out_val DeephavenFigureConnection.on_close ret].
  split; [done|]. split; [done|].
  edestruct (figure_on_update_push u r w
               (<[lst := OListener (DeephavenFigureListener.set_connection l
                                      (Some client))]> h)
               self lst f
               (DeephavenFigureListener.set_connection l (Some client)))
    as [_ Hpush]; try done.
  - by rewrite lookup_insert_ne.
  - by rewrite lookup_insert_eq.
  - eexists _, _. exact Hpush.
Qed.
(** X20.  Over a listener, [on_data] is an echo: whatever payload and
    references come in go to the adapter's client unchanged, in one message,
    and no object in the heap changes. *)
Theorem on_data_echoes h lst l client (payload : pybytes)
    (refs : list object) :
  h !! lst = Some (OListener l) →
  DeephavenFigureConnection.on_data
    {| figure_listener := lst; client_connection := client |} payload refs h =
  Outcome h [EvOnData client payload refs] (inr ()).
Proof.
  intros Hl. unfold DeephavenFigureConnection.on_data.
  erewrite bind_run.
  2:{ unfold DeephavenFigureConnection.call_execute. cbn [figure_listener].
      rewrite Hl. rewrite (in_listener_run _ _ _ _ Hl).
      cbn [DeephavenFigureListener.execute ret out_val out_state out_trace].
      rewrite insert_id by done. reflexivity. }
  done.
Qed.
End adapter_more.

(** ** More on serialization *)

Section serialization_more.
Context `{Libraries}.
Implicit Types (f : DeephavenFigure) (e : Exporter).

(** X15.  Serializing a figure again with an exporter that has already
    served for it changes nothing: whatever other objects were referenced
    in between, [to_dict] returns the same document as the first time and
    leaves the exporter as it finds it. *)
Theorem serialization_is_repeatable f e d e1 (os : list object) :
  DeephavenFigure.to_dict f e = inr (d, e1) →
  let later := (Exporter.reference_all e1 os).2 in
  DeephavenFigure.to_dict f later = inr (d, later).
Proof.
  unfold DeephavenFigure.to_dict, DeephavenFigure.to_json,
    DeephavenFigure.get_json_links.
  destruct (fig f) as [pf|]; [|done].
  pose proof (json_links_flat (_data_mappings f) e) as Hflat.
  destruct (DeephavenFigure.json_links (_data_mappings f) e) as [ls e'].
  simpl in *. intros [= <- <-].
  destruct (Hflat _ (reference_all_extends os e')) as (_ & _ & ->).
  done.
Qed.

(** X16.  An explicit [True] for [has_template] or [has_color] is kept
    whatever the arguments hold, and an explicit [False] never hides what
    the arguments hold: each flag of the new figure is true exactly when
    it was passed as [True] or the arguments have it.  The figure starts
    with no listener, and with the mappings it was given, [None] counting
    as the empty list. *)
Theorem explicit_flags_add (figure : option Figure) (fn : option Callable)
    (args : option kwargs) (mappings : option (list DataMapping))
    (template color : option bool) (generator : option Generator)
    (subplots : option bool) (lock : Lock) :
  let f := DeephavenFigure.init figure fn args mappings template color
             generator subplots lock in
  (has_template f = true ↔
   template = Some true ∨ has_arg args (CheckStr "template") = true) ∧
  (has_color f = true ↔
   color = Some true ∨ has_arg args (CheckFn has_color_args) = true) ∧
  _data_mappings f = default [] mappings ∧
  has_subplots f = default false subplots ∧
  listener f = None.
Proof.
  intros f. subst f. cbn.
  split; [|split; [|split]].
  - destruct template as [[|]|]; cbn; split; auto; intros [[=]|?]; done.
  - destruct color as [[|]|]; cbn; split; auto; intros [[=]|?]; done.
  - by destruct mappings as [[|m ms]|].
  - done.
Qed.

(** X17.  The two plugin types register under different names and accept
    exactly the same objects: every [DeephavenFigure], and never a
    [DeephavenFigureListener] or an object that is not there.
    [register_into] registers the two of them, after whatever was
    registered before. *)
Theorem registered_types_overlap (callback : list ObjectType) (h : heap)
    (obj : loc) :
  ChartRegistration.register_into callback =
    callback ++ [TDeephavenFigureType; TDeephavenFigureListenerType] ∧
  ChartRegistration.name_of TDeephavenFigureType ≠
    ChartRegistration.name_of TDeephavenFigureListenerType ∧
  ChartRegistration.is_type_of TDeephavenFigureType h obj =
    ChartRegistration.is_type_of TDeephavenFigureListenerType h obj ∧
  (ChartRegistration.is_type_of TDeephavenFigureListenerType h obj = true ↔
   ∃ f, h !! obj = Some (OFigure f)).
Proof.
  split; [unfold ChartRegistration.register_into; by rewrite <- app_assoc|].
  split; [done|]. split; [done|].
  cbn. unfold DeephavenFigureListenerType.is_type.
  destruct (h !! obj) as [[f|l]|]; split; try done.
  - intros _. by exists f.
  - by intros [f [=]].
  - by intros [f [=]].
Qed.
End serialization_more.

Section exporter_invariant.
Context `{Host}.
Implicit Types (l : DeephavenFigureListener) (f : DeephavenFigure).
Implicit Types (e : Exporter).

Lemma get_json_links_wf f e :
  Exporter_wf e → Exporter_wf (DeephavenFigure.get_json_links f e).2.
Proof.
  intros Hwf. unfold DeephavenFigure.get_json_links.
  rewrite json_links_exporter.
  by destruct (reference_all_spec (referenced_tables (_data_mappings f)) e Hwf).
Qed.

Lemma to_dict_wf f e d e1 :
  Exporter_wf e → DeephavenFigure.to_dict f e = inr (d, e1) → Exporter_wf e1.
Proof.
  intros Hwf. unfold DeephavenFigure.to_dict, DeephavenFigure.to_json.
  destruct (fig f) as [pf|]; [|done].
  pose proof (get_json_links_wf f e Hwf) as Hwf1.
  destruct (DeephavenFigure.get_json_links f e) as [ls e']. cbn in *.
  by intros [= <- <-].
Qed.

(** X18.  A listener's exporter stays well formed over notifications: if
    its entries are hashable objects, no two of them the same dict key,
    stored with their positions as indices, which is so for a new listener,
    they still are after any notification, whatever its outcome; and every
    reference list that a notification pushes holds each object once, and
    no two objects that are the same dict key. *)
Theorem listener_exporter_stays_wf u r w l :
  Exporter_wf (exporter l) →
  let o := DeephavenFigureListener.on_update u r w l in
  Exporter_wf (exporter (out_state o)) ∧
  ∀ c payload refs,
    EvOnData c payload refs ∈ out_trace o →
    NoDup refs ∧ NoDup (dict_key <$> refs).
Proof.
  intros Hwf o. subst o. rewrite listener_on_update_unfold.
  unfold listener_on_update_outcome.
  destruct (invoke _ _ _) as [e|[new_fig x]].
  { split; [done|]. intros c p rs Hin. cbn in Hin.
    rewrite !elem_of_cons, elem_of_nil in Hin.
    by destruct Hin as [?|[?|[?|?]]]. }
  destruct (DeephavenFigure.to_dict new_fig (exporter l)) as [e|[d e1]] eqn:Hd.
  { split; [done|]. intros c p rs Hin. cbn in Hin.
    rewrite !elem_of_cons, elem_of_nil in Hin.
    by destruct Hin as [?|[?|[?|?]]]. }
  pose proof (to_dict_wf _ _ _ _ Hwf Hd) as Hwf1.
  destruct (connection l) as [c|].
  2:{ split; [done|]. intros c p rs Hin. cbn in Hin.
      rewrite !elem_of_cons, elem_of_nil in Hin.
      by destruct Hin as [?|[?|[?|?]]]. }
  destruct (DeephavenFigure.to_dict new_fig e1) as [e|[d2 e2]] eqn:Hd2.
  { split; [done|]. intros c' p rs Hin. cbn in Hin.
    rewrite !elem_of_cons, elem_of_nil in Hin.
    by destruct Hin as [?|[?|[?|?]]]. }
  pose proof (to_dict_wf _ _ _ _ Hwf1 Hd2) as Hwf2.
  split; [done|]. intros c' p rs Hin. cbn in Hin.
  rewrite !elem_of_cons, elem_of_nil in Hin.
  destruct Hin as [?|[?|[Hin|[?|?]]]]; try done.
  injection Hin as _ _ ->. destruct Hwf2 as [Hnd _].
  split; [by eapply NoDup_fmap_1|done].
Qed.

(** X19.  Links and reference list line up.  After [get_json_links] on a
    well-formed exporter, every data mapping that has a column has its
    table's key in the exporter, under a Reference to an object that is the
    same dict key as the table and whose index is the position of that
    object in [reference_list]; the mapping's links are built from that
    Reference. *)
Theorem links_align_with_reference_list f e :
  Exporter_wf e →
  let links := DeephavenFigure.get_json_links f e in
  ∀ m, m ∈ _data_mappings f → column_to_property m ≠ [] →
    ∃ r,
      Exporter.getitem (references links.2) (table_key (source_table m)) =
        Some r ∧
      dict_key (obj r) = Some (table_key (source_table m)) ∧
      Exporter.reference_list links.2 !! index r = Some (obj r) ∧
      ∀ cp, cp ∈ column_to_property m →
            DataMapping.link m cp r ∈ links.1.
Proof.
  intros Hwf links m Hm Hcols.
  pose proof (get_json_links_wf f e Hwf) as [Hnd Hix]. fold links in Hnd, Hix.
  assert (Some (table_key (source_table m)) ∈ exported_keys links.2) as Hin.
  { subst links. unfold DeephavenFigure.get_json_links.
    rewrite json_links_exporter.
    apply reference_all_keys. right. unfold referenced_tables.
    apply list_elem_of_fmap. exists (table_object (source_table m)).
    split; [done|].
    apply list_elem_of_bind. exists m. split; [|done].
    destruct (column_to_property m) as [|cp cps]; [done|]. cbn. left. }
  destruct (Exporter.getitem (references links.2)
              (table_key (source_table m)))
    as [r|] eqn:Hg; [|by apply getitem_None in Hg].
  exists r. split; [done|].
  destruct (getitem_Some _ _ _ Hg) as (i & o & Hi & Ho).
  destruct (Hix _ _ _ Hi) as (<- & Hobj & _).
  split; [by rewrite Hobj|]. split.
  { unfold Exporter.reference_list. by rewrite list_lookup_fmap, Hi, Hobj. }
  intros cp Hcp. subst links. unfold DeephavenFigure.get_json_links in *.
  destruct (json_links_flat (_data_mappings f) e _ (Exporter_extends_refl _))
    as (_ & -> & _).
  apply list_elem_of_bind. exists m. split; [|done].
  rewrite Hg. apply list_elem_of_fmap. by exists cp.
Qed.
End exporter_invariant.

(** ** The further properties on the sample instances *)

Lemma listener_init_binds_table_witness :
  Sample.args !! "args" =
    Some (PDict {[ "x" := PStr "Timestamp"; "y" := PStr "Price" ]}) ∧
  ∃ l, @DeephavenFigureListener.init Sample.libraries Sample.host
         (table_object Sample.trades) Sample.line Sample.args Sample.ctx
         0%nat = inr l ∧
       table l = table_object Sample.trades ∧ connection l = None.
Proof.
  split; [reflexivity|].
  destruct (@listener_init_binds_table Sample.libraries Sample.host
              (table_object Sample.trades) Sample.line Sample.args
              Sample.ctx 0%nat)
    as [_ Hok].
  destruct (Hok _ eq_refl) as (l & d' & Hinit & Ht & _ & _ & Hc & _).
  by exists l.
Defined.

Lemma figureless_payload_raises_witness :
  fig Blank.payload = None ∧
  out_val (@DeephavenFigureUpdates.on_update Sample.libraries Blank.host
             0%nat Sample.update false () Sample.heap1) =
    inl (AttributeError "NoneType" "to_json") ∧
  out_state (@DeephavenFigureUpdates.on_update Sample.libraries Blank.host
               0%nat Sample.update false () Sample.heap1) !! 0%nat =
    Sample.heap1 !! 0%nat.
Proof.
  destruct (@figureless_payload_raises Sample.libraries Blank.host Sample.update
              false () Sample.heap1 0%nat 1%nat _ _ Blank.payload PNone
              sample_heap1_figure eq_refl sample_heap1_listener eq_refl
              eq_refl)
    as (_ & _ & _ & Hval & Hfig).
  split; [reflexivity|]. split; [exact Hval|].
  etrans; [exact Hfig|]. symmetry. exact sample_heap1_figure.
Defined.

Lemma update_without_connection_witness :
  connection Sample.new_listener = None ∧
  out_val (@DeephavenFigureListener.on_update Sample.libraries Sample.host
             Sample.update false 0%nat Sample.new_listener) =
    inr (Sample.chart Sample.trades) ∧
  filter is_push
    (out_trace (@DeephavenFigureListener.on_update Sample.libraries
                  Sample.host Sample.update false 0%nat Sample.new_listener)) = [].
Proof.
  destruct (@update_without_connection Sample.libraries Sample.host Sample.update
              false 0%nat Sample.new_listener (Sample.chart Sample.trades)
              PNone _ eq_refl eq_refl eq_refl)
    as (Hval & Htrace & _).
  split; [reflexivity|]. split; [exact Hval|]. by rewrite Htrace.
Defined.


Lemma initialize_listener_needs_args_witness :
  (∅ : kwargs) !! "args" = None ∧
  @DeephavenFigureUpdates.initialize_listener Sample.libraries Sample.host
    0%nat (table_object Sample.trades) Sample.line ∅ Sample.ctx 0%nat
    Sample.heap0 =
  Outcome Sample.heap0 [] (inl (KeyError "args")).
Proof.
  split; [reflexivity|].
  exact (proj1 (@initialize_listener_needs_args Sample.libraries Sample.host
                  Sample.update false 0%nat Sample.heap0 0%nat
                  (Sample.chart Sample.trades) (table_object Sample.trades)
                  Sample.line ∅ Sample.ctx 0%nat eq_refl eq_refl eq_refl)).
Defined.

Lemma initialize_listener_is_fresh_witness :
  let o := @DeephavenFigureUpdates.initialize_listener Sample.libraries
             Sample.host 0%nat (table_object Sample.quotes) Sample.line
             Sample.args Sample.ctx 0%nat Sample.heap1 in
  (∃ lst l,
     lst ≠ 1%nat ∧
     out_state o !! lst = Some (@OListener Sample.libraries l) ∧
     table l = table_object Sample.quotes) ∧
  filter is_push
    (out_trace (@DeephavenFigureUpdates.on_update Sample.libraries
                  Sample.host 0%nat Sample.update false 0%nat
                  (out_state o))) = [].
Proof.
  intros o.
  destruct (@initialize_listener_is_fresh Sample.libraries Sample.host
              Sample.update false 0%nat Sample.heap1 0%nat _
              (table_object Sample.quotes) Sample.line Sample.args
              Sample.ctx 0%nat _ sample_heap1_figure eq_refl)
    as [(lst & l & _ & _ & Hfree & _ & Hl & Ht & _) Hquiet].
  split.
  - exists lst, l. split; [|by split].
    intros ->. discriminate (eq_trans (eq_sym sample_heap1_listener) Hfree).
  - fold o in Hquiet. induction Hquiet as [|ev tr Hev _ IH]; [done|].
    rewrite filter_cons, Hev. exact IH.
Defined.


Lemma last_adapter_wins_witness :
  out_state
    (@DeephavenFigureConnection.init Sample.libraries 1%nat (plain 31)
       (out_state (@DeephavenFigureConnection.init Sample.libraries 1%nat
                     Sample.client Sample.heap1))) !! 1%nat =
  Some (@OListener Sample.libraries
          (@DeephavenFigureListener.set_connection Sample.libraries
             Sample.new_listener (Some (plain 31)))).
Proof.
  exact (proj2 (@last_adapter_wins Sample.libraries Sample.heap1 1%nat _
                  Sample.client (plain 31) sample_heap1_listener)).
Defined.

Lemma on_close_keeps_pushing_witness :
  ∃ payload refs,
    filter is_push
      (out_trace
         (@DeephavenFigureUpdates.on_update Sample.libraries Sample.host
            0%nat Sample.update false 0%nat
            (out_state
               (@DeephavenFigureConnection.on_close Sample.libraries
                  {| figure_listener := 1%nat;
                     client_connection := Sample.client |}
                  (out_state (@DeephavenFigureConnection.init
                                Sample.libraries 1%nat Sample.client
                                Sample.heap1)))))) =
    [@EvOnData Sample.libraries Sample.client payload refs].
Proof.
  destruct (@on_close_keeps_pushing Sample.libraries Sample.host Sample.update false
              0%nat Sample.heap1 0%nat 1%nat _ _ (Sample.chart Sample.trades)
              PNone Sample.client _ sample_heap1_figure eq_refl
              sample_heap1_listener eq_refl eq_refl)
    as (_ & _ & Hpush).
  exact Hpush.
Defined.

Lemma on_data_echoes_witness :
  Sample.heap1 !! 1%nat =
    Some (@OListener Sample.libraries Sample.new_listener) ∧
  @DeephavenFigureConnection.on_data Sample.libraries
    {| figure_listener := 1%nat; client_connection := Sample.client |}
    (JStr "ping") [table_object Sample.trades] Sample.heap1 =
  Outcome Sample.heap1
    [@EvOnData Sample.libraries Sample.client (JStr "ping")
       [table_object Sample.trades]]
    (inr ()).
Proof.
  split; [exact sample_heap1_listener|].
  exact (@on_data_echoes Sample.libraries Sample.heap1 1%nat _ Sample.client
           (JStr "ping") [table_object Sample.trades]
           sample_heap1_listener).
Defined.

Lemma serialization_is_repeatable_witness :
  ∃ d e1,
    @DeephavenFigure.to_dict Sample.libraries (Sample.chart Sample.trades)
      Exporter.init = inr (d, e1) ∧
    @DeephavenFigure.to_dict Sample.libraries (Sample.chart Sample.trades)
      (Exporter.reference_all e1 [table_object Sample.quotes]).2 =
    inr (d, (Exporter.reference_all e1 [table_object Sample.quotes]).2).
Proof.
  eexists _, _. split; [reflexivity|].
  exact (@serialization_is_repeatable Sample.libraries
           (Sample.chart Sample.trades) Exporter.init _ _
           [table_object Sample.quotes] eq_refl).
Defined.

Lemma listener_exporter_stays_wf_witness :
  Exporter_wf (exporter Sample.listener0) ∧
  Exporter_wf (exporter Sample.listener1).
Proof.
  split; [exact Exporter_wf_init|].
  exact (proj1 (@listener_exporter_stays_wf Sample.libraries Sample.host
                  Sample.update false 0%nat Sample.listener0 Exporter_wf_init)).
Defined.

Lemma links_align_with_reference_list_witness :
  ∃ r,
    Exporter.getitem
      (references
         (@DeephavenFigure.get_json_links Sample.libraries
            (Sample.chart Sample.trades) Exporter.init).2)
      (table_key Sample.trades) = Some r ∧
    index r = 0%nat.
Proof.
  destruct (@links_align_with_reference_list Sample.libraries
              (Sample.chart Sample.trades) Exporter.init Exporter_wf_init
              {| column_to_property := [("Timestamp", "x"); ("Price", "y")];
                 source_table := Sample.trades; offset := 0 |})
    as (r & Hg & _).
  { apply list_elem_of_here. }
  { discriminate. }
  exists r. split; [exact Hg|].
  cbn in Hg. by injection Hg as <-.
Defined.
